(** * gulp-watchify: a shallow embedding of the plugin's stream classes

    The repository holds three revisions of the same module:
    [src/index.js], [src/unnamed/part_001] and [src/unnamed/part_000]
    (in order of growing functionality).  They share almost all of their
    text, so one embedding is given, indexed by [Revision]; every place
    where the revisions differ is a [match] on the revision, annotated
    with the lines of the files.

    The plugin is glue between three external parties, which are modelled
    as the environment:
    - Node's [stream.Transform] in object mode (the base class),
    - the bundler (watchify / browserify or a user supplied factory),
      whose [bundle(cb)] calls back later with [(err, source)],
    - Node's timers ([setTimeout] / [clearTimeout]) with a logical clock
      in milliseconds. *)

From Stdlib Require Import ZArith Bool Lia.

From stdpp Require Import base option list gmap strings fin_maps pretty.

Set Default Proof Using "Type".

(** ** JavaScript values *)

Inductive Revision := index_js | part_001 | part_000.

(** The values the plugin inspects.  [JRef l] is a reference to the plain
    object stored at index [l] of the heap, [JBundler b] a reference to the
    [b]-th bundler instance made by the factory. *)
Inductive jsval :=
  | JUndefined
  | JNull
  | JBool (b : bool)
  | JNum (n : Z)
  | JStr (s : string)
  | JRef (l : nat)
  | JBundler (b : nat).

#[global] Instance jsval_eq_dec : EqDecision jsval.
Proof. solve_decision. Defined.

(** JavaScript's ToBoolean, as used by [!x], [x || y] and [x ? a : b]. *)
Definition truthy (v : jsval) : bool :=
  match v with
  | JUndefined | JNull => false
  | JBool b => b
  | JNum n => negb (n =? 0)%Z
  | JStr s => negb (String.eqb s "")
  | JRef _ | JBundler _ => true
  end.

(** [(typeof v === 'boolean') ? v : true] *)
Definition boolean_or_true (v : jsval) : bool :=
  match v with JBool b => b | _ => true end.

(** [typeof v === 'boolean'] *)
Definition is_boolean (v : jsval) : bool :=
  match v with JBool _ => true | _ => false end.

(** ToString of a property key, for [obj[key] = ...]. *)
Definition to_key (v : jsval) : string :=
  match v with
  | JUndefined => "undefined"
  | JNull => "null"
  | JBool true => "true"
  | JBool false => "false"
  | JNum n => pretty n
  | JStr s => s
  | JRef _ | JBundler _ => "[object Object]"
  end.

(** ** Files *)

(** An entry file as the plugin reads it: only [base], [cwd] and [path] are
    ever looked at; a property that is absent reads as [JUndefined]. *)
Record SrcFile := mkSrcFile { base : jsval; cwd : jsval; path : jsval }.

#[global] Instance SrcFile_eq_dec : EqDecision SrcFile.
Proof. solve_decision. Defined.

(** A value written to the stream: a primitive, or an object. *)
Inductive chunk :=
  | Prim (v : jsval)
  | Obj (f : SrcFile).

(** The descriptor handed to [new gutil.File({contents, base, cwd, path})];
    [contents] is [new Buffer(source)], the bytes of the bundled source. *)
Record File := mkFile {
  contents : list Byte.byte;
  file_base : jsval;
  file_cwd : jsval;
  file_path : jsval
}.

Definition Buffer (source : string) : list Byte.byte :=
  String.list_byte_of_string source.

(** [AbstractBundleStream.prototype._createBundleFile]
    (part_000 56-63, part_001 59-66, index.js 75-82). *)
Definition _createBundleFile (srcFile : SrcFile) (source : string) : File :=
  {| contents := Buffer source;
     file_base := base srcFile;
     file_cwd := cwd srcFile;
     file_path := path srcFile |}.

(** The error object of the bundler, by its message. *)
Definition BundlerError := string.

(** [new PluginError('gulp-watchify', x)] where [x] is a message or the
    bundler's error. *)
Inductive PluginError :=
  | PluginError_message (plugin : string) (message : string)
  | PluginError_wrap (plugin : string) (err : BundlerError).

(** ** Options *)

Module Options.

(** The [options] object of the constructor; a missing property is
    [JUndefined] (or [None] for the structured ones).  [rebundleDelay]
    and [watcherMaxListeners] are documented as numbers. *)
Record t := mk {
  watch : jsval;
  verbose : jsval;
  skipError : jsval;
  skipUpdateError : jsval;
  primeCache : jsval;
  shareWatchers : jsval;
  rebundle : jsval;
  watcherMaxListeners : option Z;
  rebundleDelay : option Z;
  bundlerOptions : option (gmap string jsval);
  Bundler : option nat;
  transforms : option (list (jsval * jsval));
  bundlers : option nat
}.

(** [{}] *)
Definition empty : t :=
  mk JUndefined JUndefined JUndefined JUndefined JUndefined JUndefined
     JUndefined None None None None None None.

End Options.

(** [skipUpdateError] came with part_001; index.js has [skipError] instead. *)
Definition has_skipUpdateError (rev : Revision) : bool :=
  match rev with index_js => false | part_001 | part_000 => true end.

(** The counter [_unresolvedAsyncs] came with part_000. *)
Definition has_counter (rev : Revision) : bool :=
  match rev with part_000 => true | index_js | part_001 => false end.

(** The factory stored in [this._bundler]. *)
Inductive BundlerFactory :=
  | watchify
  | browserify
  | custom (f : nat).

(** ** Node's [stream.Transform] in object mode

    The part of the base class the plugin relies on.  Written chunks are
    transformed one at a time: [write] starts [_transform] at once when no
    transform is in flight and buffers the chunk otherwise; the callback
    handed to [_transform] ([done]) ends the transform in flight and, when
    it carries no error, synchronously starts the transform of the next
    buffered chunk.  [push(x)] appends to the readable side, [push(null)]
    being the end marker.  [written] and [callbacks] keep the history of the
    [write] calls and of the [done] calls, for the statements below. *)
Record TransformState (I O : Type) := mkTransform {
  transforming : bool;
  buffered : list I;
  written : list I;
  pushed : list (option O);
  callbacks : list (option PluginError)
}.

Arguments mkTransform {I O}.

Arguments transforming {I O}.

Arguments buffered {I O}.

Arguments written {I O}.

Arguments pushed {I O}.

Arguments callbacks {I O}.

Definition new_Transform {I O} : TransformState I O :=
  mkTransform false [] [] [] [].

Definition push {I O} (x : option O) (s : TransformState I O) : TransformState I O :=
  mkTransform (transforming s) (buffered s) (written s) (pushed s ++ [x]) (callbacks s).

(** The bookkeeping of [write(c)]; the caller starts [_transform] when the
    result says so. *)
Definition accept {I O} (c : I) (s : TransformState I O) : TransformState I O :=
  if transforming s
  then mkTransform true (buffered s ++ [c]) (written s ++ [c]) (pushed s) (callbacks s)
  else mkTransform true (buffered s) (written s ++ [c]) (pushed s) (callbacks s).

(** The bookkeeping of [done(er)]: the transform in flight is over. *)
Definition called_back {I O} (er : option PluginError) (s : TransformState I O)
  : TransformState I O :=
  mkTransform false (buffered s) (written s) (pushed s) (callbacks s ++ [er]).

(** Taking the next buffered chunk into a new transform. *)
Definition take_next {I O} (s : TransformState I O) : option (I * TransformState I O) :=
  match buffered s with
  | [] => None
  | c :: rest => Some (c, mkTransform true rest (written s) (pushed s) (callbacks s))
  end.

(** The files pushed so far, without end markers. *)
Definition files {O} (out : list (option O)) : list O := omap id out.

(** ** The two stream classes *)

(** [ReBundle] (part_000 74-89).  [rb_skipError] is index.js's
    [_skipError] (set by its AbstractBundleStream), [rb_skipUpdateError]
    the later revisions' [_skipUpdateError]; [_unresolvedAsyncs] exists in
    part_000 only. *)
Record ReBundle := mkReBundle {
  rb_stream : TransformState SrcFile File;
  rb_verbose : bool;
  rb_skipError : bool;
  rb_skipUpdateError : bool;
  _bundlerInstance : nat;
  _unresolvedAsyncs : Z
}.

Definition rb_with_stream (s : TransformState SrcFile File) (r : ReBundle) : ReBundle :=
  mkReBundle s (rb_verbose r) (rb_skipError r) (rb_skipUpdateError r)
             (_bundlerInstance r) (_unresolvedAsyncs r).

Definition rb_with_unresolved (n : Z) (r : ReBundle) : ReBundle :=
  mkReBundle (rb_stream r) (rb_verbose r) (rb_skipError r) (rb_skipUpdateError r)
             (_bundlerInstance r) n.

(** [GulpWatchify] (part_000 160-277).  [_rebundleStream] is [None] for
    both [undefined] and [null]; [_rebundleTimeout] is the handle last
    returned by [setTimeout]. *)
Record GulpWatchify := mkGulpWatchify {
  gw_stream : TransformState chunk File;
  verbose : bool;
  _skipError : bool;
  _skipUpdateError : bool;
  watch : bool;
  _watcherMaxListeners : option Z;
  bundlerOptions : gmap string jsval;
  _rebundle : jsval;
  _rebundleDelay : option Z;
  _bundler : BundlerFactory;
  _transforms : list (jsval * jsval);
  _depsCache : jsval;
  _packageCache : jsval;
  _watchers : jsval;
  _bundlers : nat;
  _rebundleStream : option nat;
  _rebundleTimeout : option nat
}.

Definition gw_with_stream (s : TransformState chunk File) (g : GulpWatchify) :=
  mkGulpWatchify s (verbose g) (_skipError g) (_skipUpdateError g) (watch g)
    (_watcherMaxListeners g) (bundlerOptions g) (_rebundle g) (_rebundleDelay g)
    (_bundler g) (_transforms g) (_depsCache g) (_packageCache g) (_watchers g)
    (_bundlers g) (_rebundleStream g) (_rebundleTimeout g).

Definition gw_with_rebundleStream (r : option nat) (g : GulpWatchify) :=
  mkGulpWatchify (gw_stream g) (verbose g) (_skipError g) (_skipUpdateError g) (watch g)
    (_watcherMaxListeners g) (bundlerOptions g) (_rebundle g) (_rebundleDelay g)
    (_bundler g) (_transforms g) (_depsCache g) (_packageCache g) (_watchers g)
    (_bundlers g) r (_rebundleTimeout g).

Definition gw_with_rebundleTimeout (t : option nat) (g : GulpWatchify) :=
  mkGulpWatchify (gw_stream g) (verbose g) (_skipError g) (_skipUpdateError g) (watch g)
    (_watcherMaxListeners g) (bundlerOptions g) (_rebundle g) (_rebundleDelay g)
    (_bundler g) (_transforms g) (_depsCache g) (_packageCache g) (_watchers g)
    (_bundlers g) (_rebundleStream g) t.

(** ** The environment *)

(** The closures the plugin hands to [bundler.bundle]. *)
Inductive Callback :=
  | firstBundleCallback (srcFile : SrcFile)
  | rebundleCallback (stream : nat) (srcFile : SrcFile).

(** What the plugin calls on a bundler instance, in order. *)
Inductive BundlerCall :=
  | call_add (srcFile : SrcFile)
  | call_on (event : string)
  | call_transform (tr_opts tr : jsval)
  | call_bundle (id : nat).

Record Bundler := mkBundler {
  factory : BundlerFactory;
  opts : gmap string jsval;
  entry : SrcFile;
  received : list BundlerCall
}.

(** One [bundle(cb)] invocation; [outstanding] until the bundler calls back. *)
Record BundleCall := mkBundleCall {
  on_bundler : nat;
  callback : Callback;
  outstanding : bool
}.

(** A pending timeout of [_handleUpdate]: its closure captured the stream
    [closes]. *)
Record Timer := mkTimer { handle : nat; deadline : Z; closes : nat }.

Inductive Emitted :=
  | emit_update (srcFile : SrcFile) (bundler : nat)
  | emit_rebundle (stream : nat).

(** Lines given to [gutil.log] (time stamps and colours left out). *)
Inductive LogLine :=
  | log_bundling (p : jsval)
  | log_bundled (p : jsval)
  | log_updating (p : jsval)
  | log_rebundled (p : jsval)
  | log_failed (p : jsval)
  | log_failed_plain
  | log_error (err : BundlerError)
  | log_stream_definition.

Record World := mkWorld {
  now : Z;
  gulp : GulpWatchify;
  rebundles : list ReBundle;
  bundlers : list Bundler;
  calls : list BundleCall;
  timers : list Timer;
  next_handle : nat;
  heap : list (gmap string jsval);
  emitted : list Emitted;
  logged : list LogLine
}.

Definition with_now (t : Z) (w : World) : World :=
  mkWorld t (gulp w) (rebundles w) (bundlers w) (calls w) (timers w)
          (next_handle w) (heap w) (emitted w) (logged w).

Definition with_gulp (g : GulpWatchify) (w : World) : World :=
  mkWorld (now w) g (rebundles w) (bundlers w) (calls w) (timers w)
          (next_handle w) (heap w) (emitted w) (logged w).

Definition with_rebundles (r : list ReBundle) (w : World) : World :=
  mkWorld (now w) (gulp w) r (bundlers w) (calls w) (timers w)
          (next_handle w) (heap w) (emitted w) (logged w).

Definition with_bundlers (b : list Bundler) (w : World) : World :=
  mkWorld (now w) (gulp w) (rebundles w) b (calls w) (timers w)
          (next_handle w) (heap w) (emitted w) (logged w).

Definition with_calls (c : list BundleCall) (w : World) : World :=
  mkWorld (now w) (gulp w) (rebundles w) (bundlers w) c (timers w)
          (next_handle w) (heap w) (emitted w) (logged w).

Definition with_timers (t : list Timer) (n : nat) (w : World) : World :=
  mkWorld (now w) (gulp w) (rebundles w) (bundlers w) (calls w) t
          n (heap w) (emitted w) (logged w).

Definition with_heap (h : list (gmap string jsval)) (w : World) : World :=
  mkWorld (now w) (gulp w) (rebundles w) (bundlers w) (calls w) (timers w)
          (next_handle w) h (emitted w) (logged w).

Definition with_emitted (e : list Emitted) (w : World) : World :=
  mkWorld (now w) (gulp w) (rebundles w) (bundlers w) (calls w) (timers w)
          (next_handle w) (heap w) e (logged w).

Definition with_logged (l : list LogLine) (w : World) : World :=
  mkWorld (now w) (gulp w) (rebundles w) (bundlers w) (calls w) (timers w)
          (next_handle w) (heap w) (emitted w) l.

(** [gutil.log(...)] *)
Definition gutil_log (l : LogLine) (w : World) : World :=
  with_logged (logged w ++ [l]) w.

(** [self.emit(...)] on the GulpWatchify instance. *)
Definition emit (e : Emitted) (w : World) : World :=
  with_emitted (emitted w ++ [e]) w.

(** [bundler.bundle(cb)]: the call is noted on the instance and stays
    outstanding until the bundler calls back. *)
Definition bundle (b : nat) (cb : Callback) (w : World) : World :=
  let id := length (calls w) in
  with_calls (calls w ++ [mkBundleCall b cb true])
    (with_bundlers
       (alter (fun x => mkBundler (factory x) (opts x) (entry x)
                                  (received x ++ [call_bundle id])) b (bundlers w)) w).

(** Node's [setTimeout(f, ms)]: a delay outside [1 .. 2^31-1] is taken as 1. *)
Definition TIMEOUT_MAX : Z := 2147483647.

Definition after (ms : Z) : Z :=
  if ((1 <=? ms) && (ms <=? TIMEOUT_MAX))%Z then ms else 1%Z.

Definition setTimeout (stream : nat) (ms : Z) (w : World) : nat * World :=
  let h := next_handle w in
  (h, with_timers (timers w ++ [mkTimer h (now w + after ms) stream]) (S h) w).

(** Node's [clearTimeout(h)]; [undefined] and handles that already fired
    are ignored. *)
Definition clearTimeout (h : option nat) (w : World) : World :=
  match h with
  | None => w
  | Some h =>
      with_timers (filter (fun t => handle t ≠ h) (timers w)) (next_handle w) w
  end.

(** ** The plugin *)

Definition on_rebundle (stream : nat) (f : ReBundle -> ReBundle) (w : World) : World :=
  with_rebundles (alter f stream (rebundles w)) w.

Definition on_gulp (f : GulpWatchify -> GulpWatchify) (w : World) : World :=
  with_gulp (f (gulp w)) w.

(** [stream.push(x)] on a ReBundle stream and on the GulpWatchify stream. *)
Definition rb_push (stream : nat) (x : option File) : World -> World :=
  on_rebundle stream (fun r => rb_with_stream (push x (rb_stream r)) r).

Definition gw_push (x : option File) : World -> World :=
  on_gulp (fun g => gw_with_stream (push x (gw_stream g)) g).

(** [function ReBundle(bundlerInstance, options)]
    (part_000 74-89, part_001 77-87, index.js 93-103); the three arguments
    after the bundler are [options.verbose], [options.skipError] and
    [options.skipUpdateError]. *)
Definition new_ReBundle (bundlerInstance : nat) (o_verbose o_skipError o_skipUpdateError : jsval)
  : ReBundle :=
  mkReBundle new_Transform (boolean_or_true o_verbose) (boolean_or_true o_skipError)
             (boolean_or_true o_skipUpdateError) bundlerInstance 0.

(** [ReBundle.prototype.registerAsync] (part_000 137-139). *)
Definition registerAsync (stream : nat) : World -> World :=
  on_rebundle stream (fun r => rb_with_unresolved (_unresolvedAsyncs r + 1) r).

(** [ReBundle.prototype.finishIfResolved] (part_000 147-152). *)
Definition finishIfResolved (stream : nat) (w : World) : World :=
  let w1 := on_rebundle stream (fun r => rb_with_unresolved (_unresolvedAsyncs r - 1) r) w in
  match rebundles w1 !! stream with
  | Some r => if (_unresolvedAsyncs r =? 0)%Z then rb_push stream None w1 else w1
  | None => w1
  end.

(** [ReBundle.prototype._transform], up to the call of [bundle]
    (part_000 94-130, part_001 92-120, index.js 107-126); the callback it
    passes is [rebundleCallback], run by [rebundled] below. *)
Definition ReBundle_transform (rev : Revision) (stream : nat) (srcFile : SrcFile) (w : World)
  : World :=
  match rebundles w !! stream with
  | None => w
  | Some r =>
      let w1 := bundle (_bundlerInstance r) (rebundleCallback stream srcFile) w in
      match rev with
      | part_000 =>
          let w2 := registerAsync stream w1 in
          if rb_verbose r then gutil_log (log_updating (path srcFile)) w2 else w2
      | part_001 => gutil_log (log_updating (path srcFile)) w1
      | index_js =>
          if rb_verbose r then gutil_log (log_updating (path srcFile)) w1 else w1
      end
  end.

(** The [done] callback of a ReBundle transform (Node's afterTransform). *)
Definition ReBundle_done (rev : Revision) (stream : nat) (er : option PluginError) (w : World)
  : World :=
  let w1 := on_rebundle stream (fun r => rb_with_stream (called_back er (rb_stream r)) r) w in
  match er with
  | Some _ => w1
  | None =>
      match rebundles w1 !! stream with
      | Some r =>
          match take_next (rb_stream r) with
          | Some (c, s) =>
              ReBundle_transform rev stream c (on_rebundle stream (rb_with_stream s) w1)
          | None => w1
          end
      | None => w1
      end
  end.

(** [rebundle.write(srcFile)] *)
Definition ReBundle_write (rev : Revision) (stream : nat) (srcFile : SrcFile) (w : World)
  : World :=
  match rebundles w !! stream with
  | None => w
  | Some r =>
      let w1 := on_rebundle stream (fun r => rb_with_stream (accept srcFile (rb_stream r)) r) w in
      if transforming (rb_stream r) then w1 else ReBundle_transform rev stream srcFile w1
  end.

(** [AbstractBundleStream.prototype._handleError] (index.js 56-66). *)
Definition _handleError (skipError verbose : bool) (err : BundlerError)
    (done : option PluginError -> World -> World) (w : World) : World :=
  if negb skipError then done (Some (PluginError_wrap "gulp-watchify" err)) w
  else
    let w1 := if verbose
              then gutil_log (log_error err) (gutil_log log_failed_plain w)
              else w in
    done None w1.

(** What the bundler passes to a callback: [(err, source)] with a truthy
    [err], or a falsy [err] and the bundled source. *)
Inductive BundleResult :=
  | Failed (err : BundlerError)
  | Bundled (source : string).

(** The callback of [ReBundle.prototype._transform]
    (part_000 98-123, part_001 95-118, index.js 110-122). *)
Definition rebundled (rev : Revision) (stream : nat) (srcFile : SrcFile)
    (result : BundleResult) (w : World) : World :=
  match rebundles w !! stream with
  | None => w
  | Some self =>
      let done := ReBundle_done rev stream in
      match result with
      | Failed err =>
          match rev with
          | index_js =>
              (* [err && !self._handleError(err, done)]: the handler returns
                 undefined, so the callback returns after it *)
              _handleError (rb_skipError self) (rb_verbose self) err done w
          | part_001 =>
              if negb (rb_skipUpdateError self)
              then done (Some (PluginError_wrap "gulp-watchify" err)) w
              else done None (gutil_log (log_error err)
                                (gutil_log (log_failed (path srcFile)) w))
          | part_000 =>
              if negb (rb_skipUpdateError self)
              then done (Some (PluginError_wrap "gulp-watchify" err)) w
              else finishIfResolved stream
                     (done None (gutil_log (log_error err)
                                   (gutil_log (log_failed (path srcFile)) w)))
          end
      | Bundled source =>
          let file := _createBundleFile srcFile source in
          let w1 := rb_push stream (Some file) w in
          let w2 := if rb_verbose self
                    then gutil_log (log_rebundled (path srcFile)) w1 else w1 in
          match rev with
          | part_000 => finishIfResolved stream (done None w2)
          | _ => done None w2
          end
      end
  end.

(** [!srcFile] and [srcFile.path] for a written value. *)
Definition chunk_truthy (c : chunk) : bool :=
  match c with Prim v => truthy v | Obj _ => true end.

Definition chunk_path (c : chunk) : jsval :=
  match c with Prim _ => JUndefined | Obj f => path f end.

Definition gw_called_back (er : option PluginError) : World -> World :=
  on_gulp (fun g => gw_with_stream (called_back er (gw_stream g)) g).

(** A method call on bundler [b]. *)
Definition bundler_call (b : nat) (c : BundlerCall) (w : World) : World :=
  with_bundlers
    (alter (fun x => mkBundler (factory x) (opts x) (entry x) (received x ++ [c]))
           b (bundlers w)) w.

(** [new PluginError('gulp-watchify', 'Expected a source file with a path')] *)
Definition expected_a_path : PluginError :=
  PluginError_message "gulp-watchify" "Expected a source file with a path".

(** [opts = copy(this.bundlerOptions)] with [cache], [pkgCache],
    [packageCache] and [watchers] set (part_000 296-302). *)
Definition bundler_opts (self : GulpWatchify) : gmap string jsval :=
  <["watchers" := _watchers self]>
    (<["packageCache" := _packageCache self]>
       (<["pkgCache" := _packageCache self]>
          (<["cache" := _depsCache self]> (bundlerOptions self)))).

(** The calls [bundler.transform(tr.opts, tr.tr)] of
    [this._transforms.forEach] (part_000 319-321). *)
Definition transform_calls (trs : list (jsval * jsval)) : list BundlerCall :=
  map (fun tr => call_transform (fst tr) (snd tr)) trs.

(** [GulpWatchify.prototype._transform], up to the call of [bundle]
    (part_000 289-346, part_001 232-288, index.js 231-285).  The three
    revisions agree on everything modelled here. *)
Definition GulpWatchify_transform (rev : Revision) (srcFile : chunk) (w : World) : World :=
  if negb (chunk_truthy srcFile) || negb (truthy (chunk_path srcFile))
  then gw_called_back (Some expected_a_path) w
  else
    match srcFile with
    | Prim _ => w (* not reached: a primitive has no path *)
    | Obj f =>
        let self := gulp w in
        let opts := bundler_opts self in
        let bundler := length (bundlers w) in
        let w1 := with_bundlers
                    (bundlers w ++
                       [mkBundler (_bundler self) opts f
                                  [call_add f; call_on "watch"; call_on "update"]]) w in
        let w2 := with_heap
                    (alter (insert (to_key (path f)) (JBundler bundler))
                           (_bundlers self) (heap w1)) w1 in
        let w3 := fold_left
                    (fun w tr => bundler_call bundler (call_transform (fst tr) (snd tr)) w)
                    (_transforms self) w2 in
        let w4 := bundle bundler (firstBundleCallback f) w3 in
        if verbose self then gutil_log (log_bundling (path f)) w4 else w4
    end.

(** The [done] callback of a GulpWatchify transform. *)
Definition GulpWatchify_done (rev : Revision) (er : option PluginError) (w : World) : World :=
  let w1 := gw_called_back er w in
  match er with
  | Some _ => w1
  | None =>
      match take_next (gw_stream (gulp w1)) with
      | Some (c, s) => GulpWatchify_transform rev c (on_gulp (gw_with_stream s) w1)
      | None => w1
      end
  end.

(** [stream.write(srcFile)] on the GulpWatchify stream. *)
Definition GulpWatchify_write (rev : Revision) (srcFile : chunk) (w : World) : World :=
  let w1 := on_gulp (fun g => gw_with_stream (accept srcFile (gw_stream g)) g) w in
  if transforming (gw_stream (gulp w)) then w1 else GulpWatchify_transform rev srcFile w1.

(** [firstBundleCallback] (part_000 323-338, part_001 266-279,
    index.js 265-277). *)
Definition firstBundled (rev : Revision) (srcFile : SrcFile) (result : BundleResult)
    (w : World) : World :=
  let self := gulp w in
  let done := GulpWatchify_done rev in
  match result with
  | Failed err =>
      match rev with
      | index_js => _handleError (_skipError self) (verbose self) err done w
      | _ => done (Some (PluginError_wrap "gulp-watchify" err)) w
      end
  | Bundled source =>
      let file := _createBundleFile srcFile source in
      let w1 := gw_push (Some file) w in
      let w2 := if verbose self then gutil_log (log_bundled (path srcFile)) w1 else w1 in
      done None w2
  end.

(** [self._rebundleDelay || 400] (part_000 392, part_001 321; 800 in
    index.js 317). *)
Definition rebundleDelay (rev : Revision) (self : GulpWatchify) : Z :=
  match _rebundleDelay self with
  | Some d => if (d =? 0)%Z then (match rev with index_js => 800 | _ => 400 end)%Z else d
  | None => (match rev with index_js => 800 | _ => 400 end)%Z
  end.

(** [GulpWatchify.prototype._handleUpdate]
    (part_000 357-393, part_001 298-322, index.js 296-318). *)
Definition _handleUpdate (rev : Revision) (srcFile : SrcFile) (bundler : nat) (w : World)
  : World :=
  let self := gulp w in
  if negb (truthy (_rebundle self)) then w
  else
    let w1 := clearTimeout (_rebundleTimeout self) w in
    let '(rebundle, w2) :=
      match _rebundleStream self with
      | Some r => (r, w1)
      | None =>
          let r := length (rebundles w1) in
          let w1 := match rev with
                    | index_js => gutil_log log_stream_definition w1
                    | _ => w1
                    end in
          let stream :=
            match rev with
            | index_js => new_ReBundle bundler (JBool (verbose self)) JUndefined JUndefined
            | _ => new_ReBundle bundler (JBool (verbose self)) JUndefined
                                (JBool (_skipUpdateError self))
            end in
          let w2 := on_gulp (gw_with_rebundleStream (Some r))
                            (with_rebundles (rebundles w1 ++ [stream]) w1) in
          let w3 := emit (emit_rebundle r) w2 in
          (r, match rev with part_000 => registerAsync r w3 | _ => w3 end)
      end in
    let w3 := ReBundle_write rev rebundle srcFile w2 in
    let '(h, w4) := setTimeout rebundle (rebundleDelay rev self) w3 in
    on_gulp (gw_with_rebundleTimeout (Some h)) w4.

(** The closure given to [setTimeout] in [_handleUpdate]
    (part_000 385-392, part_001 318-321, index.js 314-317). *)
Definition timed_out (rev : Revision) (t : Timer) (w : World) : World :=
  let w1 := match rev with
            | part_000 => finishIfResolved (closes t) w
            | _ => rb_push (closes t) None w
            end in
  on_gulp (gw_with_rebundleStream None) w1.

(** [function GulpWatchify(options)] (part_000 160-277, part_001 128-220,
    index.js 128-219), run on the heap [h] of the caller.  [options] is
    [None] when the argument is missing. *)
Definition new_GulpWatchify (rev : Revision) (options : option Options.t)
    (h : list (gmap string jsval)) : World :=
  let options := default Options.empty options in
  let primeCache := boolean_or_true (Options.primeCache options) in
  let shareWatchers := boolean_or_true (Options.shareWatchers options) in
  let rebundle :=
    match rev with
    | index_js =>
        (* index.js 164: the test reads options.skipError *)
        if is_boolean (Options.skipError options)
        then Options.rebundle options else JBool true
    | _ => JBool (boolean_or_true (Options.rebundle options))
    end in
  let bundler :=
    match Options.Bundler options with
    | Some f => custom f
    | None => if truthy (Options.watch options) then watchify else browserify
    end in
  let '(depsCache, packageCache, h1) :=
    if primeCache
    then (JRef (length h), JRef (S (length h)), h ++ [∅; ∅])
    else (JUndefined, JUndefined, h) in
  let '(watchers, h2) :=
    if shareWatchers then (JRef (length h1), h1 ++ [∅]) else (JUndefined, h1) in
  let '(bundlers, h3) :=
    match Options.bundlers options with
    | Some l => (l, h2)
    | None => (length h2, h2 ++ [∅])
    end in
  mkWorld 0
    (mkGulpWatchify new_Transform
       (boolean_or_true (Options.verbose options))
       (boolean_or_true (Options.skipError options))
       (boolean_or_true (Options.skipUpdateError options))
       (boolean_or_true (Options.watch options))
       (match rev with part_000 => Options.watcherMaxListeners options | _ => None end)
       (default ∅ (Options.bundlerOptions options))
       rebundle
       (match rev with part_000 => Options.rebundleDelay options | _ => None end)
       bundler
       (default [] (Options.transforms options))
       depsCache packageCache watchers bundlers None None)
    [] [] [] [] 0 h3 [] [].

(** ** Runs *)

(** What the environment does to the plugin. *)
Inductive Event :=
  | write (srcFile : chunk)                      (* upstream writes to the stream *)
  | calls_back (id : nat) (result : BundleResult) (* the bundler answers bundle call [id] *)
  | update (bundler : nat)                       (* a bundler emits 'update' *)
  | library_store (l : nat) (key : string) (v : option jsval)
                                                 (* the bundler library sets or deletes a
                                                    property of a heap object *)
  | tick.                                        (* time passes *)

(** [o[key] = v], or [delete o[key]] when [v] is [None]. *)
Definition store (key : string) (v : option jsval) (o : gmap string jsval)
  : gmap string jsval :=
  match v with
  | Some v => <[key := v]> o
  | None => delete key o
  end.

(** The clock moves to [t]; the timeouts due by then run. *)
Definition advance (rev : Revision) (t : Z) (w : World) : World :=
  let t := Z.max (now w) t in
  let due := filter (fun x => (deadline x <= t)%Z) (timers w) in
  let rest := filter (fun x => ¬ (deadline x <= t)%Z) (timers w) in
  fold_left (fun w x => timed_out rev x w) due
            (with_now t (with_timers rest (next_handle w) w)).

Definition handle_event (rev : Revision) (ev : Event) (w : World) : World :=
  match ev with
  | write srcFile => GulpWatchify_write rev srcFile w
  | calls_back id result =>
      match calls w !! id with
      | Some c =>
          if outstanding c
          then
            let w1 := with_calls
                        (<[id := mkBundleCall (on_bundler c) (callback c) false]> (calls w)) w in
            match callback c with
            | firstBundleCallback srcFile => firstBundled rev srcFile result w1
            | rebundleCallback stream srcFile => rebundled rev stream srcFile result w1
            end
          else w
      | None => w
      end
  | update bundler =>
      (* the listener of part_000 312-315 *)
      match bundlers w !! bundler with
      | Some b => _handleUpdate rev (entry b) bundler (emit (emit_update (entry b) bundler) w)
      | None => w
      end
  | library_store l key v => with_heap (alter (store key v) l (heap w)) w
  | tick => w
  end.

Definition step (rev : Revision) (e : Z * Event) (w : World) : World :=
  handle_event rev (snd e) (advance rev (fst e) w).

Definition run (rev : Revision) (es : list (Z * Event)) (w : World) : World :=
  fold_left (fun w e => step rev e w) es w.

Definition watch_options (v : jsval) : Options.t :=
  Options.mk v JUndefined JUndefined JUndefined JUndefined JUndefined
             JUndefined None None None None None None.

(** ** Vocabulary: what each part of the plugin can touch *)

(** The fields of the instance that are set once, by the constructor. *)
Definition config (g : GulpWatchify) :=
  (verbose g, _skipError g, _skipUpdateError g, watch g, _watcherMaxListeners g,
   bundlerOptions g, _rebundle g, _rebundleDelay g, _bundler g, _transforms g,
   _depsCache g, _packageCache g, _watchers g, _bundlers g).

(** What a bundler instance is made of: the factory that made it, the
    options it was given and its entry file. *)
Definition identity (b : Bundler) := (factory b, opts b, entry b).

Definition made_by (g : GulpWatchify) (i : BundlerFactory * gmap string jsval * SrcFile)
  : Prop :=
  fst i = (_bundler g, bundler_opts g).

(** What a ReBundle stream is given at construction. *)
Definition static (r : ReBundle) :=
  (rb_verbose r, rb_skipError r, rb_skipUpdateError r, _bundlerInstance r).

(** The stream a rebundle callback belongs to is one of the first [n]. *)
Definition call_stream_ok (n : nat) (c : BundleCall) : Prop :=
  match callback c with
  | rebundleCallback s _ => s < n
  | firstBundleCallback _ => True
  end.

(** The bundle calls of [w'] are those of [w] and then some new ones. *)
Definition more_calls (w w' : World) : Prop :=
  exists more, calls w' = calls w ++ more /\
               Forall (call_stream_ok (length (rebundles w))) more.

(** [w'] differs from [w] at most in the ReBundle streams (none added), the
    bundle calls, the calls noted on bundlers and the log. *)
Definition rebundle_local (w w' : World) : Prop :=
  gulp w' = gulp w /\ timers w' = timers w /\ next_handle w' = next_handle w /\
  now w' = now w /\ heap w' = heap w /\ emitted w' = emitted w /\
  length (rebundles w') = length (rebundles w) /\
  identity <$> bundlers w' = identity <$> bundlers w /\
  static <$> rebundles w' = static <$> rebundles w /\
  more_calls w w'.

(** [w'] differs from [w] at most in the main stream, the bundlers (which
    may be joined by new ones made from the instance's settings), the
    bundle calls, the log, and the heap object [_bundlers]. *)
Definition gulp_local (w w' : World) : Prop :=
  config (gulp w') = config (gulp w) /\
  _rebundleStream (gulp w') = _rebundleStream (gulp w) /\
  _rebundleTimeout (gulp w') = _rebundleTimeout (gulp w) /\
  timers w' = timers w /\ next_handle w' = next_handle w /\ now w' = now w /\
  rebundles w' = rebundles w /\ emitted w' = emitted w /\
  (exists new, identity <$> bundlers w' = (identity <$> bundlers w) ++ new /\
               Forall (made_by (gulp w)) new) /\
  length (heap w') = length (heap w) /\
  (forall l, l <> _bundlers (gulp w) -> heap w' !! l = heap w !! l) /\
  more_calls w w'.

(** ** Vocabulary: the debounce timer *)

(** Either no timeout is pending and no ReBundle stream is open, or exactly
    one is pending: the one whose handle the instance remembers, set to
    close the stream that is open. *)
Definition timer_inv (w : World) : Prop :=
  match timers w with
  | [] => _rebundleStream (gulp w) = None
  | [t] =>
      _rebundleTimeout (gulp w) = Some (handle t) /\
      _rebundleStream (gulp w) = Some (closes t) /\
      closes t < length (rebundles w) /\
      (now w < deadline t)%Z
  | _ => False
  end.

(** The stream [_handleUpdate] writes to, and the state just after it has
    made sure that stream exists (before the write). *)
Definition update_target (w : World) : nat :=
  match _rebundleStream (gulp w) with
  | Some r => r
  | None => length (rebundles w)
  end.

Definition opened (rev : Revision) (bundler : nat) (w : World) : World :=
  let self := gulp w in
  let w1 := clearTimeout (_rebundleTimeout self) w in
  match _rebundleStream self with
  | Some r => w1
  | None =>
      let r := length (rebundles w1) in
      let w1 := match rev with
                | index_js => gutil_log log_stream_definition w1
                | _ => w1
                end in
      let stream :=
        match rev with
        | index_js => new_ReBundle bundler (JBool (verbose self)) JUndefined JUndefined
        | _ => new_ReBundle bundler (JBool (verbose self)) JUndefined
                            (JBool (_skipUpdateError self))
        end in
      let w2 := on_gulp (gw_with_rebundleStream (Some r))
                        (with_rebundles (rebundles w1 ++ [stream]) w1) in
      let w3 := emit (emit_rebundle r) w2 in
      match rev with part_000 => registerAsync r w3 | _ => w3 end
  end.

(** The effect of one event on the heap object [l], as far as the bundler
    library is its author. *)
Definition library_effect (l : nat) (ev : Event) (o : gmap string jsval)
  : gmap string jsval :=
  match ev with
  | library_store l' key v => if decide (l' = l) then store key v o else o
  | _ => o
  end.

(** What the library has stored into object [l] over a run. *)
Definition stored (l : nat) (es : list (Z * Event)) (o : gmap string jsval)
  : gmap string jsval :=
  fold_left (fun o e => library_effect l (snd e) o) es o.

(** ** Vocabulary: the shared caches *)

(** A reference given as [options.bundlers] points into the caller's heap. *)
Definition bundlers_allocated (options : option Options.t) (h : list (gmap string jsval))
  : bool :=
  match Options.bundlers (default Options.empty options) with
  | Some l => l <? length h
  | None => true
  end.

(** ** Vocabulary: bundle calls *)

(** No event of [es] answers bundle call [id]. *)
Definition unanswered (id : nat) (es : list (Z * Event)) : bool :=
  forallb (fun e => match snd e with
                    | calls_back id' _ => negb (id' =? id)
                    | _ => true
                    end) es.

(** ** Vocabulary: streams and calls in reachable states *)

(** Every rebundle callback belongs to an existing stream, and (in the
    revisions that have the option) every ReBundle stream carries the
    instance's [_skipUpdateError]. *)
Definition wired (rev : Revision) (w : World) : Prop :=
  Forall (call_stream_ok (length (rebundles w))) (calls w) /\
  (rev <> index_js ->
   Forall (eq (_skipUpdateError (gulp w))) (rb_skipUpdateError <$> rebundles w)).

(** ** Vocabulary: the flow of a ReBundle stream *)

(** The Transform side of a stream: in flight, buffered, written, callbacks
    so far and the files pushed (end markers left out). *)
Definition flow (r : ReBundle) :=
  (transforming (rb_stream r), buffered (rb_stream r), written (rb_stream r),
   callbacks (rb_stream r), files (pushed (rb_stream r))).

Definition flows (w : World) := flow <$> rebundles w.

(** The effect of [done(er)] on the flow. *)
Definition done_flow (er : option PluginError)
    (fl : bool * list SrcFile * list SrcFile * list (option PluginError) * list File) :=
  let '(t, b, wr, cb, fs) := fl in
  match er, b with
  | None, c :: rest => (true, rest, wr, cb ++ [None], fs)
  | _, _ => (false, b, wr, cb ++ [er], fs)
  end.

(** The effect of [push(file)] on the flow. *)
Definition push_flow (file : File)
    (fl : bool * list SrcFile * list SrcFile * list (option PluginError) * list File) :=
  let '(t, b, wr, cb, fs) := fl in (t, b, wr, cb, fs ++ [file]).

(** The effect of [write(c)] on the flow. *)
Definition write_flow (c : SrcFile)
    (fl : bool * list SrcFile * list SrcFile * list (option PluginError) * list File) :=
  let '(t, b, wr, cb, fs) := fl in
  if t then (true, b ++ [c], wr ++ [c], cb, fs) else (true, b, wr ++ [c], cb, fs).

(** ** Vocabulary: rebundling switched off *)

(** The streams announced by 'rebundle' events so far. *)
Definition rebundle_notifications (w : World) : list nat :=
  omap (fun e => match e with emit_rebundle s => Some s | emit_update _ _ => None end)
       (emitted w).

(** Nothing of the rebundle machinery has ever been used. *)
Definition untouched (w : World) : Prop :=
  rebundles w = [] /\ timers w = [] /\ rebundle_notifications w = [] /\
  _rebundleStream (gulp w) = None /\ _rebundleTimeout (gulp w) = None /\
  next_handle w = 0.

(** ** Vocabulary: writes to the ReBundle streams *)

Definition writes (w : World) : list (list SrcFile) :=
  (fun r => written (rb_stream r)) <$> rebundles w.

(** ** Vocabulary: bursts of updates *)

(** The delay after which the pending timeout closes the open stream. *)
Definition close_delay (rev : Revision) (w : World) : Z :=
  after (rebundleDelay rev (gulp w)).

Definition is_update (ev : Event) : bool :=
  match ev with update _ => true | _ => false end.

(** The events [es] come in order of time, each before the delay [d] since
    the latest update (at [last]) has run out; [prev] is the time of the
    previous event. *)
Fixpoint in_window (d last prev : Z) (es : list (Z * Event)) : bool :=
  match es with
  | [] => true
  | e :: es' =>
      (prev <=? fst e)%Z && (fst e <? last + d)%Z &&
      in_window d (if is_update (snd e) then fst e else last) (fst e) es'
  end.

(** The time of the latest update among [es], [last] when there is none. *)
Fixpoint last_update (last : Z) (es : list (Z * Event)) : Z :=
  match es with
  | [] => last
  | e :: es' => last_update (if is_update (snd e) then fst e else last) es'
  end.

(** The update events of [es] come from the first [n] bundlers. *)
Definition known (n : nat) (es : list (Z * Event)) : bool :=
  forallb (fun e => match snd e with update b => b <? n | _ => true end) es.

(** The entry files of the update events of [es], in order. *)
Definition updates_of (bs : list Bundler) (es : list (Z * Event)) : list SrcFile :=
  omap (fun e => match snd e with update b => entry <$> bs !! b | _ => None end) es.

(** [(t0, update b0) :: rest] is a maximal burst from state [w0] on: it
    starts with no window open (no timeout pending at [t0]), and every later
    event falls into the window kept open by the updates before it. *)
Definition burst_starts (rev : Revision) (w0 : World) (t0 : Z) (b0 : nat)
    (rest : list (Z * Event)) : bool :=
  (now w0 <=? t0)%Z &&
  forallb (fun x => (deadline x <=? t0)%Z) (timers w0) &&
  known (length (bundlers w0)) ((t0, update b0) :: rest) &&
  in_window (close_delay rev w0) t0 t0 rest.

(** What C3 says of such a burst: one new stream, one 'rebundle'
    notification, every update written to that stream, and a fresh stream for
    the first update after the delay has run out. *)
Definition one_stream_for_burst (rev : Revision) (w0 : World) (t0 : Z) (b0 : nat)
    (rest : list (Z * Event)) : Prop :=
  let burst := (t0, update b0) :: rest in
  let w1 := run rev burst w0 in
  let stream := length (rebundles w0) in
  length (rebundles w1) = S (length (rebundles w0)) /\
  rebundle_notifications w1 = rebundle_notifications w0 ++ [stream] /\
  writes w1 = writes w0 ++ [updates_of (bundlers w0) burst] /\
  forall t' b',
    (last_update t0 rest + close_delay rev w0 <= t')%Z ->
    b' < length (bundlers w1) ->
    let w2 := step rev (t', update b') w1 in
    length (rebundles w2) = S (length (rebundles w1)) /\
    _rebundleStream (gulp w2) = Some (S stream) /\
    rebundle_notifications w2 = rebundle_notifications w1 ++ [S stream].

(** The state in the middle of a burst. *)
Definition in_burst (rev : Revision) (d : Z) (stream : nat) (notes0 : list nat)
    (writes0 : list (list SrcFile)) (bundlers0 : list (BundlerFactory * gmap string jsval * SrcFile))
    (last prev : Z) (ws : list SrcFile) (w : World) : Prop :=
  timer_inv w /\
  truthy (_rebundle (gulp w)) = true /\
  close_delay rev w = d /\
  _rebundleStream (gulp w) = Some stream /\
  (exists h, timers w = [mkTimer h (last + d) stream]) /\
  length (rebundles w) = S stream /\
  rebundle_notifications w = notes0 ++ [stream] /\
  writes w = writes0 ++ [ws] /\
  (exists more, identity <$> bundlers w = bundlers0 ++ more) /\
  now w = prev.

(** ** Vocabulary: the end of a ReBundle stream (part_000) *)

(** Bundle call [c] is outstanding and was issued by stream [s]. *)
Definition awaits (s : nat) (c : BundleCall) : bool :=
  outstanding c &&
  match callback c with
  | rebundleCallback s' _ => s' =? s
  | firstBundleCallback _ => false
  end.

(** The number of outstanding bundle calls of stream [s]. *)
Definition waiting (s : nat) (cs : list BundleCall) : nat :=
  length (filter (fun c => awaits s c = true) cs).

(** 1 when a timeout is pending that will close stream [s], else 0. *)
Definition pending (s : nat) (ts : list Timer) : Z :=
  if existsb (fun x => closes x =? s) ts then 1%Z else 0%Z.

Arguments waiting : simpl never.

Arguments pending : simpl never.

(** The asynchronous side of a stream: the counter, whether a transform is
    in flight, and what has been pushed. *)
Definition async (r : ReBundle) :=
  (_unresolvedAsyncs r, transforming (rb_stream r), pushed (rb_stream r)).

Definition asyncs (w : World) := async <$> rebundles w.

(** An end marker can only be the last thing pushed. *)
Definition ended_last (out : list (option File)) : Prop :=
  forall i, out !! i = Some None -> S i = length out.

(** The invariant of one stream. *)
Definition resolved_inv (w : World) (s : nat)
    (a : Z * bool * list (option File)) : Prop :=
  let '(u, tr, out) := a in
  (pending s (timers w) + Z.of_nat (waiting s (calls w)) <= u)%Z /\
  waiting s (calls w) = (if tr then 1 else 0) /\
  (None ∈ out -> u = 0%Z) /\
  ended_last out.

Definition streams_inv (w : World) : Prop :=
  forall s a, asyncs w !! s = Some a -> resolved_inv w s a.

(** The effect of the operations on [asyncs]. *)
Definition registered (a : Z * bool * list (option File)) :=
  let '(u, tr, out) := a in ((u + 1)%Z, tr, out).

Definition finished (a : Z * bool * list (option File)) :=
  let '(u, tr, out) := a in
  ((u - 1)%Z, tr, if (u - 1 =? 0)%Z then out ++ [None] else out).

Definition in_flight (tr : bool) (a : Z * bool * list (option File)) :=
  let '(u, _, out) := a in (u, tr, out).

Definition pushing (x : option File) (a : Z * bool * list (option File)) :=
  let '(u, tr, out) := a in (u, tr, out ++ [x]).

Definition appending (x : list (option File)) (a : Z * bool * list (option File)) :=
  let '(u, tr, out) := a in (u, tr, out ++ x).

(** The three invariants of part_000 together. *)
Definition settled (w : World) : Prop :=
  timer_inv w /\ wired part_000 w /\ streams_inv w.

(** ** Sample runs *)

Definition entry_a : SrcFile :=
  mkSrcFile (JStr "/proj/js") (JStr "/proj") (JStr "/proj/js/a.js").

Definition entry_b : SrcFile :=
  mkSrcFile (JStr "/proj/js") (JStr "/proj") (JStr "/proj/js/b.js").

(** [{rebundle: false}] *)
Definition rebundle_off : Options.t :=
  Options.mk JUndefined JUndefined JUndefined JUndefined JUndefined JUndefined
             (JBool false) None None None None None None.

(** [{skipUpdateError: false}] *)
Definition fatal_updates : Options.t :=
  Options.mk JUndefined JUndefined JUndefined (JBool false) JUndefined JUndefined
             JUndefined None None None None None None.

(** Two entry files are written and bundled. *)
Definition two_entries : list (Z * Event) :=
  [(0%Z, write (Obj entry_a)); (5%Z, calls_back 0 (Bundled "A"));
   (6%Z, write (Obj entry_b)); (9%Z, calls_back 1 (Bundled "B"))].

(** After that, a burst: both entries are updated, one rebundle returns. *)
Definition sample_burst : list (Z * Event) :=
  [(150%Z, update 1); (200%Z, calls_back 2 (Bundled "A2")); (450%Z, update 0)].

(** * Properties *)

(** ** The constructor *)

Ltac case_constructor options :=
  unfold new_GulpWatchify;
  destruct (boolean_or_true (Options.primeCache (default Options.empty options)));
  destruct (boolean_or_true (Options.shareWatchers (default Options.empty options)));
  destruct (Options.bundlers (default Options.empty options));
  cbn [gulp heap timers rebundles bundlers calls emitted logged now next_handle
       _bundler watch _rebundle _rebundleDelay _rebundleStream _rebundleTimeout
       _depsCache _packageCache _watchers _bundlers verbose _skipError
       _skipUpdateError gw_stream bundlerOptions _transforms].

Lemma new_bundler rev options h :
  _bundler (gulp (new_GulpWatchify rev options h)) =
  match Options.Bundler (default Options.empty options) with
  | Some f => custom f
  | None => if truthy (Options.watch (default Options.empty options))
            then watchify else browserify
  end.
Proof. case_constructor options; reflexivity. Qed.

Lemma new_watch rev options h :
  watch (gulp (new_GulpWatchify rev options h)) =
  boolean_or_true (Options.watch (default Options.empty options)).
Proof. case_constructor options; reflexivity. Qed.

Lemma new_rebundle rev options h :
  _rebundle (gulp (new_GulpWatchify rev options h)) =
  match rev with
  | index_js =>
      if is_boolean (Options.skipError (default Options.empty options))
      then Options.rebundle (default Options.empty options) else JBool true
  | _ => JBool (boolean_or_true (Options.rebundle (default Options.empty options)))
  end.
Proof. case_constructor options; reflexivity. Qed.

Lemma new_skipUpdateError rev options h :
  _skipUpdateError (gulp (new_GulpWatchify rev options h)) =
  boolean_or_true (Options.skipUpdateError (default Options.empty options)).
Proof. case_constructor options; reflexivity. Qed.

Lemma new_idle rev options h :
  let w := new_GulpWatchify rev options h in
  timers w = [] /\ rebundles w = [] /\ bundlers w = [] /\ calls w = [] /\
  emitted w = [] /\ _rebundleStream (gulp w) = None /\ _rebundleTimeout (gulp w) = None /\
  gw_stream (gulp w) = new_Transform /\ next_handle w = 0.
Proof. case_constructor options; repeat split; reflexivity. Qed.

(** C8.  With no [options.Bundler], watchify is chosen exactly when the raw
    [options.watch] is truthy, browserify otherwise; constructed without
    options the instance has [watch = true] and yet uses browserify. *)
Theorem bundler_follows_raw_watch rev (options : option Options.t) h :
  Options.Bundler (default Options.empty options) = None ->
  let raw := Options.watch (default Options.empty options) in
  let self := gulp (new_GulpWatchify rev options h) in
  let bare := gulp (new_GulpWatchify rev None h) in
  (_bundler self = watchify <-> truthy raw = true) /\
  (_bundler self = browserify <-> truthy raw = false) /\
  watch bare = true /\ _bundler bare = browserify.
Proof.
  intros HB raw self bare. subst self bare.
  rewrite !new_bundler, new_watch, HB. fold raw.
  destruct (truthy raw); cbn; repeat split; intros; congruence.
Qed.

Lemma bundler_follows_raw_watch_witness :
  Options.Bundler (default Options.empty (Some (watch_options (JNum 1)))) = None /\
  _bundler (gulp (new_GulpWatchify part_000 (Some (watch_options (JNum 1))) [])) = watchify /\
  watch (gulp (new_GulpWatchify part_000 (Some (watch_options (JNum 0))) [])) = true /\
  _bundler (gulp (new_GulpWatchify part_000 (Some (watch_options (JNum 0))) [])) = browserify.
Proof.
  split; [reflexivity|].
  split.
  - apply (bundler_follows_raw_watch part_000 (Some (watch_options (JNum 1))) []);
      reflexivity.
  - split; [reflexivity|].
    apply (bundler_follows_raw_watch part_000 (Some (watch_options (JNum 0))) []);
      reflexivity.
Defined.

(** ** Frame lemmas: what the operations leave alone *)

Ltac world_fields :=
  cbn [gulp heap timers rebundles bundlers calls emitted logged now next_handle
       with_now with_gulp with_rebundles with_bundlers with_calls with_timers
       with_heap with_emitted with_logged gutil_log emit on_gulp on_rebundle
       bundler_call bundle rb_push gw_push registerAsync gw_called_back
       gw_stream gw_with_stream gw_with_rebundleStream gw_with_rebundleTimeout
       verbose _skipError _skipUpdateError watch _watcherMaxListeners bundlerOptions
       _rebundle _rebundleDelay _bundler _transforms _depsCache _packageCache
       _watchers _bundlers _rebundleStream _rebundleTimeout fst snd].

Lemma fold_left_preserves {A B} (proj : World -> A) (g : World -> B -> World) l :
  (forall w x, proj (g w x) = proj w) ->
  forall w, proj (fold_left g l w) = proj w.
Proof.
  intros Hg. induction l as [|x l IH]; intros w; cbn; [reflexivity|].
  rewrite IH. apply Hg.
Qed.

(** ** Rejected and accepted writes *)

Lemma transform_rejects rev c w :
  chunk_truthy c = false \/ truthy (chunk_path c) = false ->
  GulpWatchify_transform rev c w = gw_called_back (Some expected_a_path) w.
Proof.
  intros H. unfold GulpWatchify_transform.
  destruct H as [-> | ->]; cbn; [reflexivity|].
  rewrite orb_true_r. reflexivity.
Qed.

(** C10.  A written value that is falsy or has no [path] gets the callback
    with the plugin error; no bundler is made or registered, no bundle call
    is issued, nothing is pushed, and nothing else of the state changes. *)
Theorem rejected_write_only_calls_back rev (srcFile : chunk) (w : World) :
  chunk_truthy srcFile = false \/ chunk_path srcFile = JUndefined ->
  let w' := GulpWatchify_transform rev srcFile w in
  callbacks (gw_stream (gulp w')) =
    callbacks (gw_stream (gulp w)) ++ [Some expected_a_path] /\
  bundlers w' = bundlers w /\
  heap w' = heap w /\
  calls w' = calls w /\
  pushed (gw_stream (gulp w')) = pushed (gw_stream (gulp w)) /\
  w' = gw_called_back (Some expected_a_path) w.
Proof.
  intros H w'. subst w'. rewrite transform_rejects.
  - repeat split; reflexivity.
  - destruct H as [H | H]; [left; exact H | right; rewrite H; reflexivity].
Qed.

Lemma rejected_write_only_calls_back_witness :
  let w := new_GulpWatchify part_000 None [] in
  let w' := GulpWatchify_transform part_000 (Obj (mkSrcFile (JStr "/src") (JStr "/") JUndefined)) w in
  callbacks (gw_stream (gulp w')) = [Some expected_a_path] /\ bundlers w' = [].
Proof.
  pose proof (rejected_write_only_calls_back part_000
                (Obj (mkSrcFile (JStr "/src") (JStr "/") JUndefined))
                (new_GulpWatchify part_000 None [])) as H.
  cbv zeta in H. destruct H as (H1 & H2 & _); [right; reflexivity|].
  split; [exact H1 | exact H2].
Defined.

(** The same at the level of [write]: an idle stream answers at once. *)
Lemma rejected_write_when_idle rev c w :
  chunk_truthy c = false \/ truthy (chunk_path c) = false ->
  transforming (gw_stream (gulp w)) = false ->
  handle_event rev (write c) w =
  on_gulp (fun g => gw_with_stream
                      (called_back (Some expected_a_path) (accept c (gw_stream g))) g) w.
Proof.
  intros H Hidle. cbn [handle_event]. unfold GulpWatchify_write.
  rewrite Hidle, transform_rejects by exact H. reflexivity.
Qed.

Lemma transforms_applied b trs : forall w,
  let w' := fold_left (fun w tr => bundler_call b (call_transform (fst tr) (snd tr)) w) trs w in
  bundlers w' =
    alter (fun x => mkBundler (factory x) (opts x) (entry x)
                              (received x ++ transform_calls trs)) b (bundlers w) /\
  gulp w' = gulp w /\ heap w' = heap w /\ calls w' = calls w /\
  rebundles w' = rebundles w /\ timers w' = timers w /\ emitted w' = emitted w /\
  next_handle w' = next_handle w /\ now w' = now w /\ logged w' = logged w.
Proof.
  induction trs as [|tr trs IH]; intros w; cbn [fold_left transform_calls map].
  - split; [|repeat split; reflexivity].
    symmetry. apply list_alter_id. intros [? ? ? ?]; cbn. rewrite app_nil_r. reflexivity.
  - destruct (IH (bundler_call b (call_transform (fst tr) (snd tr)) w))
      as (Hb & Hg & Hh & Hc & Hr & Ht & He & Hn & Hnow & Hl).
    cbv zeta. rewrite Hb, Hg, Hh, Hc, Hr, Ht, He, Hn, Hnow, Hl.
    split; [|repeat split; reflexivity].
    cbn [bundler_call bundlers with_bundlers].
    rewrite list_alter_alter_eq. apply list_alter_ext; [|reflexivity].
    intros x _. cbn. rewrite <- app_assoc. reflexivity.
Qed.

(** What an accepted [_transform] does, field by field. *)
Lemma transform_accepts rev f w :
  truthy (path f) = true ->
  let self := gulp w in
  let w' := GulpWatchify_transform rev (Obj f) w in
  bundlers w' =
    bundlers w ++
      [mkBundler (_bundler self) (bundler_opts self) f
         ([call_add f; call_on "watch"; call_on "update"] ++
          transform_calls (_transforms self) ++ [call_bundle (length (calls w))])] /\
  calls w' = calls w ++ [mkBundleCall (length (bundlers w)) (firstBundleCallback f) true] /\
  heap w' = alter (insert (to_key (path f)) (JBundler (length (bundlers w))))
                  (_bundlers self) (heap w) /\
  gulp w' = gulp w /\ rebundles w' = rebundles w /\ timers w' = timers w /\
  emitted w' = emitted w /\ next_handle w' = next_handle w /\ now w' = now w.
Proof.
  intros Hp self w'. subst w' self. unfold GulpWatchify_transform.
  cbn [chunk_truthy chunk_path negb orb]. rewrite Hp. cbn [negb]. cbv zeta.
  set (w2 := with_heap _ _).
  destruct (transforms_applied (length (bundlers w)) (_transforms (gulp w)) w2)
    as (Hb & Hg & Hh & Hc & Hr & Ht & He & Hn & Hnow & Hl).
  cbv zeta in Hb, Hg, Hh, Hc, Hr, Ht, He, Hn, Hnow, Hl.
  set (w3 := fold_left _ _ w2) in *.
  destruct (verbose (gulp w)); world_fields;
    rewrite ?Hb, ?Hg, ?Hh, ?Hc, ?Hr, ?Ht, ?He, ?Hn, ?Hnow; subst w2; world_fields;
    (split; [|repeat split; reflexivity]);
    rewrite list_alter_alter_eq, alter_app_r_alt by lia;
    rewrite Nat.sub_diag; cbn; rewrite <- ?app_assoc; reflexivity.
Qed.

(** ** Locality of the operations *)

Lemma made_by_config g g' i : config g' = config g -> made_by g i -> made_by g' i.
Proof.
  unfold config, made_by, bundler_opts. intros H. injection H as ? ? ? ? ? ? ? ? ? ? ? ? ? ?.
  intros ->. congruence.
Qed.

Lemma list_alter_id_None {A} (f : A -> A) i (l : list A) :
  l !! i = None -> alter f i l = l.
Proof.
  intros H. rewrite <- (list_alter_id id l i) at 2 by reflexivity.
  apply list_alter_ext; [|reflexivity]. intros x Hx. congruence.
Qed.

Lemma fmap_alter_kept {A B} (g : A -> B) (f : A -> A) i (l : list A) :
  (forall x, g (f x) = g x) -> g <$> alter f i l = g <$> l.
Proof.
  intros H. revert i. induction l as [|x l IH]; intros [|i]; cbn; [reflexivity..| |].
  - rewrite H. reflexivity.
  - f_equal. apply IH.
Qed.

Lemma more_calls_none w w' : calls w' = calls w -> more_calls w w'.
Proof. intros H. exists []. rewrite H, app_nil_r. split; [reflexivity|constructor]. Qed.

Lemma more_calls_trans w1 w2 w3 :
  length (rebundles w2) = length (rebundles w1) ->
  more_calls w1 w2 -> more_calls w2 w3 -> more_calls w1 w3.
Proof.
  intros Hl (m1 & Hm1 & Hf1) (m2 & Hm2 & Hf2).
  exists (m1 ++ m2). rewrite Hm2, Hm1, app_assoc. split; [reflexivity|].
  apply Forall_app. split; [exact Hf1|]. rewrite <- Hl. exact Hf2.
Qed.

Lemma rebundle_local_refl w : rebundle_local w w.
Proof. repeat split; try reflexivity. apply more_calls_none. reflexivity. Qed.

Lemma rebundle_local_trans w1 w2 w3 :
  rebundle_local w1 w2 -> rebundle_local w2 w3 -> rebundle_local w1 w3.
Proof.
  intros (?&?&?&?&?&?&Hl&?&?&Hm1) (?&?&?&?&?&?&?&?&?&Hm2).
  repeat split; try congruence.
  eapply more_calls_trans; [exact Hl|exact Hm1|exact Hm2].
Qed.

Lemma gulp_local_same w w' :
  config (gulp w') = config (gulp w) ->
  _rebundleStream (gulp w') = _rebundleStream (gulp w) ->
  _rebundleTimeout (gulp w') = _rebundleTimeout (gulp w) ->
  timers w' = timers w -> next_handle w' = next_handle w -> now w' = now w ->
  rebundles w' = rebundles w -> emitted w' = emitted w ->
  bundlers w' = bundlers w -> heap w' = heap w -> calls w' = calls w ->
  gulp_local w w'.
Proof.
  intros ? ? ? ? ? ? ? ? Hb Hh Hc. repeat split; try assumption.
  - exists []. rewrite Hb, app_nil_r. split; [reflexivity|constructor].
  - rewrite Hh. reflexivity.
  - intros l _. rewrite Hh. reflexivity.
  - apply more_calls_none. exact Hc.
Qed.

Lemma gulp_local_refl w : gulp_local w w.
Proof. apply gulp_local_same; reflexivity. Qed.

Lemma gulp_local_trans w1 w2 w3 :
  gulp_local w1 w2 -> gulp_local w2 w3 -> gulp_local w1 w3.
Proof.
  intros (Hc&?&?&?&?&?&Hr&?&(n1&Hn1&Hf1)&?&Hh1&Hm1)
         (Hc'&?&?&?&?&?&?&?&(n2&Hn2&Hf2)&?&Hh2&Hm2).
  repeat split; try congruence.
  - exists (n1 ++ n2). rewrite Hn2, Hn1, app_assoc. split; [reflexivity|].
    apply Forall_app. split; [exact Hf1|].
    eapply Forall_impl; [exact Hf2|]. intros i. apply made_by_config.
    symmetry. exact Hc.
  - intros l Hl. rewrite Hh2, Hh1; [reflexivity|exact Hl|].
    unfold config in Hc. injection Hc as ? ? ? ? ? ? ? ? ? ? ? ? ? Hb. congruence.
  - eapply more_calls_trans; [rewrite Hr; reflexivity|exact Hm1|exact Hm2].
Qed.

Ltac local_by_computation :=
  unfold rebundle_local; world_fields;
  rewrite ?length_alter, ?fmap_alter_kept by (intros []; reflexivity);
  repeat (split; [reflexivity|]);
  first [ apply more_calls_none; reflexivity
        | eexists; split; [reflexivity|];
          repeat constructor; unfold call_stream_ok; cbn;
          eapply lookup_lt_Some; eassumption ].

Lemma on_rebundle_local s f w :
  (forall x, static (f x) = static x) -> rebundle_local w (on_rebundle s f w).
Proof.
  intros Hf. unfold rebundle_local. world_fields.
  rewrite length_alter, fmap_alter_kept by exact Hf.
  repeat (split; [reflexivity|]). apply more_calls_none. reflexivity.
Qed.

Ltac stream_only := apply on_rebundle_local; intros []; reflexivity.

Lemma gutil_log_rebundle_local l w : rebundle_local w (gutil_log l w).
Proof. local_by_computation. Qed.

Lemma finishIfResolved_local s w : rebundle_local w (finishIfResolved s w).
Proof.
  unfold finishIfResolved. cbv zeta.
  destruct (rebundles _ !! s) as [r|]; [destruct (_ =? _)%Z|];
    local_by_computation.
Qed.

Lemma ReBundle_transform_local rev s f w : rebundle_local w (ReBundle_transform rev s f w).
Proof.
  unfold ReBundle_transform.
  destruct (rebundles w !! s) as [r|] eqn:Hr; [|apply rebundle_local_refl].
  destruct rev, (rb_verbose r); local_by_computation.
Qed.

Lemma ReBundle_done_local rev s er w : rebundle_local w (ReBundle_done rev s er w).
Proof.
  unfold ReBundle_done. cbv zeta.
  destruct er; [stream_only|].
  destruct (rebundles _ !! s) as [r|]; [|stream_only].
  destruct (take_next _) as [[c st]|]; [|stream_only].
  eapply rebundle_local_trans; [|apply ReBundle_transform_local].
  eapply rebundle_local_trans; stream_only.
Qed.

Lemma ReBundle_write_local rev s f w : rebundle_local w (ReBundle_write rev s f w).
Proof.
  unfold ReBundle_write.
  destruct (rebundles w !! s) as [r|]; [|apply rebundle_local_refl].
  destruct (transforming _); [stream_only|].
  eapply rebundle_local_trans; [|apply ReBundle_transform_local]. stream_only.
Qed.

Lemma _handleError_rebundle_local skip v err done w :
  (forall er w, rebundle_local w (done er w)) ->
  rebundle_local w (_handleError skip v err done w).
Proof.
  intros Hd. unfold _handleError. destruct skip; cbn [negb]; [|apply Hd].
  eapply rebundle_local_trans; [|apply Hd].
  destruct v; [|apply rebundle_local_refl].
  eapply rebundle_local_trans; apply gutil_log_rebundle_local.
Qed.

Lemma rebundled_local rev s f result w : rebundle_local w (rebundled rev s f result w).
Proof.
  unfold rebundled.
  destruct (rebundles w !! s) as [r|]; [|apply rebundle_local_refl].
  destruct result as [err|source].
  - destruct rev.
    + apply _handleError_rebundle_local. intros. apply ReBundle_done_local.
    + destruct (negb _); [apply ReBundle_done_local|].
      eapply rebundle_local_trans; [|apply ReBundle_done_local].
      eapply rebundle_local_trans; apply gutil_log_rebundle_local.
    + destruct (negb _); [apply ReBundle_done_local|].
      eapply rebundle_local_trans; [|apply finishIfResolved_local].
      eapply rebundle_local_trans; [|apply ReBundle_done_local].
      eapply rebundle_local_trans; apply gutil_log_rebundle_local.
  - cbv zeta.
    assert (rebundle_local w
              (if rb_verbose r
               then gutil_log (log_rebundled (path f))
                      (rb_push s (Some (_createBundleFile f source)) w)
               else rb_push s (Some (_createBundleFile f source)) w)) as H.
    { destruct (rb_verbose r); local_by_computation. }
    destruct rev;
      (eapply rebundle_local_trans; [exact H|]);
      try apply ReBundle_done_local.
    eapply rebundle_local_trans; [apply ReBundle_done_local|apply finishIfResolved_local].
Qed.

Lemma GulpWatchify_transform_local rev c w : gulp_local w (GulpWatchify_transform rev c w).
Proof.
  destruct (negb (chunk_truthy c) || negb (truthy (chunk_path c))) eqn:Hg.
  - rewrite transform_rejects.
    + apply gulp_local_same; reflexivity.
    + apply orb_true_iff in Hg. destruct Hg as [Hg|Hg];
        apply negb_true_iff in Hg; auto.
  - apply orb_false_iff in Hg. destruct Hg as [Hg1 Hg2].
    apply negb_false_iff in Hg1, Hg2.
    destruct c as [v|f]; [discriminate Hg2|]. cbn in Hg2.
    destruct (transform_accepts rev f w Hg2) as (Hb & Hc & Hh & Hgl & Hr & Ht & He & Hn & Hnow).
    cbv zeta in *. repeat split; try congruence.
    + eexists. rewrite Hb, fmap_app. split; [reflexivity|].
      repeat constructor.
    + rewrite Hh, length_alter. reflexivity.
    + intros l Hl. rewrite Hh. apply list_lookup_alter_ne. congruence.
    + eexists. split; [exact Hc|]. repeat constructor.
Qed.

Lemma gw_stream_local f w :
  gulp_local w (on_gulp (fun g => gw_with_stream (f (gw_stream g)) g) w).
Proof. apply gulp_local_same; reflexivity. Qed.

Lemma gw_push_local x w : gulp_local w (gw_push x w).
Proof. apply gulp_local_same; reflexivity. Qed.

Lemma gutil_log_gulp_local l w : gulp_local w (gutil_log l w).
Proof. apply gulp_local_same; reflexivity. Qed.

Lemma GulpWatchify_done_local rev er w : gulp_local w (GulpWatchify_done rev er w).
Proof.
  unfold GulpWatchify_done. cbv zeta. unfold gw_called_back.
  destruct er; [apply gw_stream_local|].
  destruct (take_next _) as [[c st]|]; [|apply gw_stream_local].
  eapply gulp_local_trans; [|apply GulpWatchify_transform_local].
  eapply gulp_local_trans; [apply gw_stream_local|].
  apply (gw_stream_local (fun _ => st)).
Qed.

Lemma GulpWatchify_write_local rev c w : gulp_local w (GulpWatchify_write rev c w).
Proof.
  unfold GulpWatchify_write. cbv zeta.
  destruct (transforming _); [apply gw_stream_local|].
  eapply gulp_local_trans; [apply gw_stream_local|apply GulpWatchify_transform_local].
Qed.

Lemma firstBundled_local rev f result w : gulp_local w (firstBundled rev f result w).
Proof.
  unfold firstBundled. cbv zeta. destruct result as [err|source].
  - destruct rev; try apply GulpWatchify_done_local.
    unfold _handleError. destruct (negb _); [apply GulpWatchify_done_local|].
    eapply gulp_local_trans; [|apply GulpWatchify_done_local].
    destruct (verbose _); [|apply gulp_local_refl].
    eapply gulp_local_trans; apply gutil_log_gulp_local.
  - eapply gulp_local_trans; [|apply GulpWatchify_done_local].
    eapply gulp_local_trans; [apply gw_push_local|].
    destruct (verbose _); [apply gutil_log_gulp_local|apply gulp_local_refl].
Qed.

(** ** The debounce timer *)

Lemma after_positive ms : (1 <= after ms)%Z.
Proof.
  unfold after. destruct (_ && _) eqn:H; [|lia].
  apply andb_true_iff in H. destruct H as [H _]. lia.
Qed.

Lemma timer_inv_new rev options h : timer_inv (new_GulpWatchify rev options h).
Proof.
  destruct (new_idle rev options h) as (Ht & _ & _ & _ & _ & Hs & _).
  cbv zeta in *. unfold timer_inv. rewrite Ht. exact Hs.
Qed.

Lemma timer_inv_rebundle_local w w' :
  rebundle_local w w' -> timer_inv w -> timer_inv w'.
Proof.
  intros (Hg & Ht & _ & Hn & _ & _ & Hl & _). unfold timer_inv.
  rewrite Hg, Ht, Hn, Hl. auto.
Qed.

Lemma timer_inv_gulp_local w w' :
  gulp_local w w' -> timer_inv w -> timer_inv w'.
Proof.
  intros (_ & Hs & Hto & Ht & _ & Hn & Hr & _). unfold timer_inv.
  rewrite Hs, Hto, Ht, Hn, Hr. auto.
Qed.

(** [clearTimeout(self._rebundleTimeout)] leaves no timeout pending. *)
Lemma clearTimeout_clears w :
  timer_inv w -> timers (clearTimeout (_rebundleTimeout (gulp w)) w) = [].
Proof.
  unfold timer_inv, clearTimeout. intros H.
  destruct (timers w) as [|t [|t' ts]] eqn:Ht; [| |contradiction].
  - destruct (_rebundleTimeout (gulp w)); world_fields; [reflexivity|exact Ht].
  - destruct H as (-> & _). world_fields.
    rewrite filter_cons_False by (intros Hne; apply Hne; reflexivity).
    reflexivity.
Qed.

Lemma clearTimeout_frame h w :
  let w' := clearTimeout h w in
  gulp w' = gulp w /\ rebundles w' = rebundles w /\ next_handle w' = next_handle w /\
  now w' = now w /\ emitted w' = emitted w /\ heap w' = heap w /\
  bundlers w' = bundlers w /\ calls w' = calls w /\ logged w' = logged w.
Proof. destruct h; repeat split; reflexivity. Qed.

(** [_handleUpdate] in three stages: open, write, schedule. *)
Lemma _handleUpdate_stages rev f b w :
  truthy (_rebundle (gulp w)) = true ->
  _handleUpdate rev f b w =
  let w3 := ReBundle_write rev (update_target w) f (opened rev b w) in
  on_gulp (gw_with_rebundleTimeout (Some (next_handle w3)))
    (snd (setTimeout (update_target w) (rebundleDelay rev (gulp w)) w3)).
Proof.
  intros He. unfold _handleUpdate, opened, update_target. rewrite He. cbn [negb].
  cbv zeta.
  destruct (clearTimeout_frame (_rebundleTimeout (gulp w)) w) as (_ & Hr & _).
  cbv zeta in Hr.
  destruct (_rebundleStream (gulp w)) as [r|]; [reflexivity|].
  rewrite Hr. destruct rev; reflexivity.
Qed.

Lemma opened_facts rev b w :
  timer_inv w ->
  let w' := opened rev b w in
  timers w' = [] /\
  _rebundleStream (gulp w') = Some (update_target w) /\
  update_target w < length (rebundles w') /\
  now w' = now w /\ next_handle w' = next_handle w /\
  config (gulp w') = config (gulp w).
Proof.
  intros Hinv. cbv zeta. unfold opened, update_target.
  pose proof (clearTimeout_clears w Hinv) as Hc.
  destruct (clearTimeout_frame (_rebundleTimeout (gulp w)) w)
    as (Hg & Hr & Hn & Hnow & _).
  cbv zeta in *.
  destruct (_rebundleStream (gulp w)) as [r|] eqn:Hs.
  - rewrite Hg, Hr, Hs, Hn, Hnow. repeat split; try assumption.
    unfold timer_inv in Hinv.
    destruct (timers w) as [|t [|t' ts]]; [congruence| |contradiction].
    destruct Hinv as (_ & Hst & Hlt & _). congruence.
  - rewrite Hr.
    destruct rev; world_fields; rewrite ?Hc, ?Hg, ?Hr, ?Hn, ?Hnow, ?length_alter,
      ?length_app; cbn [length]; repeat split; try reflexivity; lia.
Qed.

Lemma timer_inv_handleUpdate rev f b w :
  timer_inv w -> timer_inv (_handleUpdate rev f b w).
Proof.
  intros Hinv.
  destruct (truthy (_rebundle (gulp w))) eqn:He.
  2:{ unfold _handleUpdate. rewrite He. exact Hinv. }
  rewrite _handleUpdate_stages by exact He. cbv zeta.
  destruct (opened_facts rev b w Hinv) as (Ht & Hs & Hlt & Hnow & Hn & _).
  cbv zeta in *.
  destruct (ReBundle_write_local rev (update_target w) f (opened rev b w))
    as (Hg' & Ht' & Hn' & Hnow' & _ & _ & Hl' & _).
  unfold timer_inv, setTimeout. world_fields.
  rewrite Ht', Ht. cbn [app handle closes deadline].
  rewrite Hg', Hl', Hnow'. repeat split; try assumption; try reflexivity.
  pose proof (after_positive (rebundleDelay rev (gulp w))). lia.
Qed.

(** Running the closure of the pending timeout. *)
Lemma timed_out_frame rev t w :
  let w' := timed_out rev t w in
  timers w' = timers w /\ now w' = now w /\ next_handle w' = next_handle w /\
  _rebundleStream (gulp w') = None /\
  _rebundleTimeout (gulp w') = _rebundleTimeout (gulp w) /\
  config (gulp w') = config (gulp w) /\
  gw_stream (gulp w') = gw_stream (gulp w) /\
  length (rebundles w') = length (rebundles w) /\
  emitted w' = emitted w /\ heap w' = heap w /\ bundlers w' = bundlers w /\
  calls w' = calls w /\
  static <$> rebundles w' = static <$> rebundles w.
Proof.
  cbv zeta. unfold timed_out. destruct rev; world_fields;
    rewrite ?length_alter, ?fmap_alter_kept by (intros []; reflexivity);
    try (repeat split; reflexivity).
  unfold finishIfResolved. cbv zeta.
  destruct (rebundles _ !! closes t) as [r|]; [destruct (_ =? _)%Z|];
    world_fields; rewrite ?length_alter, ?fmap_alter_kept by (intros []; reflexivity);
    repeat split; reflexivity.
Qed.

(** [advance] under the invariant: the pending timeout runs, or nothing. *)
Lemma advance_cases rev t w :
  timer_inv w ->
  (exists x, timers w = [x] /\ (deadline x <= Z.max (now w) t)%Z /\
             advance rev t w =
             timed_out rev x (with_now (Z.max (now w) t) (with_timers [] (next_handle w) w)))
  \/ ((forall x, x ∈ timers w -> (Z.max (now w) t < deadline x)%Z) /\
      advance rev t w = with_now (Z.max (now w) t) w).
Proof.
  unfold timer_inv, advance. intros Hinv. cbv zeta.
  destruct (timers w) as [|x [|x' ts]] eqn:Ht; [| |contradiction].
  - right. split; [intros x Hx; inversion Hx|].
    cbn. destruct w; cbn in *; subst; reflexivity.
  - destruct (decide (deadline x <= Z.max (now w) t)%Z) as [Hd|Hd].
    + left. exists x. split; [reflexivity|]. split; [exact Hd|].
      rewrite filter_cons_True by exact Hd.
      rewrite filter_cons_False by (intros Hn; apply Hn; exact Hd).
      reflexivity.
    + right. split.
      * intros y Hy. apply list_elem_of_singleton in Hy. subst y. lia.
      * rewrite filter_cons_False by exact Hd.
        rewrite filter_cons_True by exact Hd. cbn.
        destruct w; cbn in *; subst; reflexivity.
Qed.

Lemma timer_inv_advance rev t w : timer_inv w -> timer_inv (advance rev t w).
Proof.
  intros Hinv. destruct (advance_cases rev t w Hinv) as [(x & Ht & Hd & ->) | (Hlate & ->)].
  - destruct (timed_out_frame rev x
                (with_now (Z.max (now w) t) (with_timers [] (next_handle w) w)))
      as (Ht' & _ & _ & Hs & _).
    cbv zeta in *. unfold timer_inv. rewrite Ht'. exact Hs.
  - unfold timer_inv in *. world_fields.
    destruct (timers w) as [|x [|x' ts]]; [assumption| |contradiction].
    destruct Hinv as (? & ? & ? & ?). repeat split; try assumption.
    apply Hlate. apply list_elem_of_singleton. reflexivity.
Qed.

Lemma timer_inv_handle rev ev w : timer_inv w -> timer_inv (handle_event rev ev w).
Proof.
  intros Hinv. destruct ev as [c|id result|b|l key v|]; cbn [handle_event].
  - eapply timer_inv_gulp_local; [apply GulpWatchify_write_local|exact Hinv].
  - destruct (calls w !! id) as [c|]; [|exact Hinv].
    destruct (outstanding c); [|exact Hinv].
    assert (timer_inv (with_calls (<[id:=mkBundleCall (on_bundler c) (callback c) false]> (calls w)) w))
      as Hinv' by exact Hinv.
    destruct (callback c) as [f|s f].
    + eapply timer_inv_gulp_local; [apply firstBundled_local|exact Hinv'].
    + eapply timer_inv_rebundle_local; [apply rebundled_local|exact Hinv'].
  - destruct (bundlers w !! b) as [x|]; [|exact Hinv].
    apply timer_inv_handleUpdate. exact Hinv.
  - exact Hinv.
  - exact Hinv.
Qed.

Lemma timer_inv_step rev e w : timer_inv w -> timer_inv (step rev e w).
Proof. intros H. apply timer_inv_handle, timer_inv_advance, H. Qed.

Lemma run_invariant (P : World -> Prop) rev :
  (forall e w, P w -> P (step rev e w)) ->
  forall es w, P w -> P (run rev es w).
Proof.
  intros Hstep es. induction es as [|e es IH]; intros w Hw; cbn; [exact Hw|].
  apply IH, Hstep, Hw.
Qed.

Lemma timer_inv_run rev options h es :
  timer_inv (run rev es (new_GulpWatchify rev options h)).
Proof.
  apply run_invariant; [intros; apply timer_inv_step; assumption|].
  apply timer_inv_new.
Qed.

(** C6.  At every point of every run at most one close timeout is pending,
    and it is the one the instance remembers in [_rebundleTimeout]; the
    [clearTimeout] at the start of [_handleUpdate] removes it, so that the
    new timeout is scheduled with none pending. *)
Theorem at_most_one_pending_timeout rev options h es :
  let w := run rev es (new_GulpWatchify rev options h) in
  length (timers w) <= 1 /\
  (forall t, t ∈ timers w -> _rebundleTimeout (gulp w) = Some (handle t)) /\
  timers (clearTimeout (_rebundleTimeout (gulp w)) w) = [] /\
  (forall b f, length (timers (_handleUpdate rev f b w)) <= 1).
Proof.
  intros w. pose proof (timer_inv_run rev options h es) as Hinv. fold w in Hinv.
  split; [|split; [|split]].
  - unfold timer_inv in Hinv.
    destruct (timers w) as [|t [|t' ts]]; cbn; [lia|lia|contradiction].
  - intros t Ht. unfold timer_inv in Hinv.
    destruct (timers w) as [|t0 [|t' ts]]; [inversion Ht| |contradiction].
    apply list_elem_of_singleton in Ht. subst t0. apply Hinv.
  - apply clearTimeout_clears, Hinv.
  - intros b f. pose proof (timer_inv_handleUpdate rev f b w Hinv) as H.
    unfold timer_inv in H.
    destruct (timers _) as [|t [|t' ts]]; cbn; [lia|lia|contradiction].
Qed.

(** ** What a step leaves alone, for every state *)

Lemma opened_frame rev b w :
  let w' := opened rev b w in
  config (gulp w') = config (gulp w) /\ heap w' = heap w /\ bundlers w' = bundlers w /\
  calls w' = calls w /\ gw_stream (gulp w') = gw_stream (gulp w) /\
  now w' = now w /\ next_handle w' = next_handle w /\
  _rebundleTimeout (gulp w') = _rebundleTimeout (gulp w) /\
  (exists new, rb_skipUpdateError <$> rebundles w' =
               (rb_skipUpdateError <$> rebundles w) ++ new /\
               (rev <> index_js -> Forall (eq (_skipUpdateError (gulp w))) new)).
Proof.
  cbv zeta. unfold opened.
  destruct (clearTimeout_frame (_rebundleTimeout (gulp w)) w)
    as (Hg & Hr & Hn & Hnow & He & Hh & Hb & Hc & Hl).
  cbv zeta in *.
  destruct (_rebundleStream (gulp w)) as [r|].
  - rewrite Hg, Hh, Hb, Hc, Hn, Hnow, Hr. repeat split; try reflexivity.
    exists []. rewrite app_nil_r. split; [reflexivity|constructor].
  - destruct rev; world_fields; rewrite ?Hg, ?Hh, ?Hb, ?Hc, ?Hn, ?Hnow, ?Hr;
      rewrite ?fmap_alter_kept by (intros []; reflexivity);
      rewrite fmap_app; repeat split; try reflexivity;
      (eexists; split; [reflexivity|]); intros Hrev;
      try (exfalso; apply Hrev; reflexivity); repeat constructor.
Qed.

(** [_handleUpdate] touches neither the main stream, nor the heap, nor the
    make-up of any bundler. *)
Lemma _handleUpdate_frame rev f b w :
  let w' := _handleUpdate rev f b w in
  config (gulp w') = config (gulp w) /\ heap w' = heap w /\
  identity <$> bundlers w' = identity <$> bundlers w /\
  gw_stream (gulp w') = gw_stream (gulp w) /\
  (exists more, calls w' = calls w ++ more /\
                Forall (call_stream_ok (length (rebundles w'))) more) /\
  length (rebundles w) <= length (rebundles w') /\
  (exists new, rb_skipUpdateError <$> rebundles w' =
               (rb_skipUpdateError <$> rebundles w) ++ new /\
               (rev <> index_js -> Forall (eq (_skipUpdateError (gulp w))) new)).
Proof.
  cbv zeta. destruct (truthy (_rebundle (gulp w))) eqn:He.
  2:{ unfold _handleUpdate. rewrite He. repeat split; try reflexivity.
      - exists []. rewrite app_nil_r. split; [reflexivity|constructor].
      - exists []. rewrite app_nil_r. split; [reflexivity|constructor]. }
  rewrite _handleUpdate_stages by exact He. cbv zeta.
  destruct (opened_frame rev b w) as (Hc & Hh & Hb & Hcl & Hs & _ & _ & _ & (new & Hnew & Hfl)).
  destruct (ReBundle_write_local rev (update_target w) f (opened rev b w))
    as (Hg' & _ & _ & _ & Hh' & _ & Hl' & Hb' & Hst' & (more & Hm & Hf)).
  cbv zeta in *. unfold setTimeout, config in *. world_fields.
  assert (rb_skipUpdateError <$> rebundles (ReBundle_write rev (update_target w) f (opened rev b w))
          = rb_skipUpdateError <$> rebundles (opened rev b w)) as Hfl'.
  { change rb_skipUpdateError with ((fun t => snd (fst t)) ∘ static).
    rewrite !list_fmap_compose, Hst'. reflexivity. }
  rewrite Hg', Hh', Hb', Hc, Hh, Hb, Hs. repeat split; try reflexivity.
  - exists more. rewrite Hm, Hcl, Hl'. split; [reflexivity|exact Hf].
  - rewrite Hl'. rewrite <- (length_fmap rb_skipUpdateError (rebundles (opened rev b w))),
      Hnew, length_app, length_fmap. lia.
  - exists new. rewrite Hfl', Hnew. split; [reflexivity|exact Hfl].
Qed.

Lemma advance_frame rev t w :
  let w' := advance rev t w in
  config (gulp w') = config (gulp w) /\ heap w' = heap w /\ bundlers w' = bundlers w /\
  calls w' = calls w /\ emitted w' = emitted w /\
  gw_stream (gulp w') = gw_stream (gulp w) /\
  length (rebundles w') = length (rebundles w) /\
  next_handle w' = next_handle w /\
  static <$> rebundles w' = static <$> rebundles w.
Proof.
  cbv zeta. unfold advance. cbv zeta.
  set (w0 := with_now _ _).
  set (due := filter _ (timers w)).
  assert (forall {A} (proj : World -> A),
             (forall w x, proj (timed_out rev x w) = proj w) ->
             proj (fold_left (fun w x => timed_out rev x w) due w0) = proj w0) as Hfold.
  { intros A proj Hp. apply fold_left_preserves. exact Hp. }
  rewrite (Hfold _ (fun w => config (gulp w))), (Hfold _ heap), (Hfold _ bundlers),
    (Hfold _ calls), (Hfold _ emitted), (Hfold _ (fun w => gw_stream (gulp w))),
    (Hfold _ (fun w => length (rebundles w))), (Hfold _ next_handle),
    (Hfold _ (fun w => static <$> rebundles w));
    try (intros w1 x; apply (timed_out_frame rev x w1)).
  repeat split; reflexivity.
Qed.

Lemma gulp_local_frame w0 w w' :
  gulp w0 = gulp w -> bundlers w0 = bundlers w -> heap w0 = heap w ->
  gulp_local w0 w' ->
  config (gulp w') = config (gulp w) /\
  (exists new, identity <$> bundlers w' = (identity <$> bundlers w) ++ new /\
               Forall (made_by (gulp w)) new) /\
  (forall l, l <> _bundlers (gulp w) -> heap w' !! l = id <$> heap w !! l).
Proof.
  intros <- <- <- (Hc & _ & _ & _ & _ & _ & _ & _ & Hnew & _ & Hh & _).
  repeat split; [exact Hc|exact Hnew|].
  intros l Hl. rewrite option_fmap_id. apply Hh, Hl.
Qed.

Lemma rebundle_local_frame w0 w w' :
  gulp w0 = gulp w -> bundlers w0 = bundlers w -> heap w0 = heap w ->
  rebundle_local w0 w' ->
  config (gulp w') = config (gulp w) /\
  (exists new, identity <$> bundlers w' = (identity <$> bundlers w) ++ new /\
               Forall (made_by (gulp w)) new) /\
  (forall l, l <> _bundlers (gulp w) -> heap w' !! l = id <$> heap w !! l).
Proof.
  intros <- <- <- (Hg & _ & _ & _ & Hh & _ & _ & Hb & _).
  repeat split; [rewrite Hg; reflexivity| |].
  - exists []. rewrite Hb, app_nil_r. split; [reflexivity|constructor].
  - intros l _. rewrite Hh, option_fmap_id. reflexivity.
Qed.

Lemma handle_event_frame rev ev w :
  let w' := handle_event rev ev w in
  config (gulp w') = config (gulp w) /\
  (exists new, identity <$> bundlers w' = (identity <$> bundlers w) ++ new /\
               Forall (made_by (gulp w)) new) /\
  (forall l, l <> _bundlers (gulp w) ->
             heap w' !! l = library_effect l ev <$> heap w !! l).
Proof.
  cbv zeta.
  pose proof (fun w' => gulp_local_frame w w w' eq_refl eq_refl eq_refl) as Hgl.
  destruct ev as [c|id result|b|l key v|]; cbn [handle_event library_effect].
  - apply Hgl, GulpWatchify_write_local.
  - destruct (calls w !! id) as [c|]; [|apply Hgl, gulp_local_refl].
    destruct (outstanding c); [|apply Hgl, gulp_local_refl].
    destruct (callback c) as [f|s f].
    + eapply gulp_local_frame; [| | |apply firstBundled_local]; reflexivity.
    + eapply rebundle_local_frame; [| | |apply rebundled_local]; reflexivity.
  - destruct (bundlers w !! b) as [x|]; [|apply Hgl, gulp_local_refl].
    destruct (_handleUpdate_frame rev (entry x) b (emit (emit_update (entry x) b) w))
      as (Hc & Hh & Hb & _).
    cbv zeta in *. repeat split; [exact Hc| |].
    + exists []. rewrite Hb, app_nil_r. split; [reflexivity|constructor].
    + intros l _. rewrite Hh, option_fmap_id. reflexivity.
  - world_fields. repeat split.
    + exists []. rewrite app_nil_r. split; [reflexivity|constructor].
    + intros l' _. unfold library_effect. destruct (decide (l = l')) as [->|Hne].
      * apply list_lookup_alter_eq.
      * rewrite list_lookup_alter_ne by exact Hne.
        rewrite option_fmap_id. reflexivity.
  - apply Hgl, gulp_local_refl.
Qed.

Lemma step_frame rev e w :
  let w' := step rev e w in
  config (gulp w') = config (gulp w) /\
  (exists new, identity <$> bundlers w' = (identity <$> bundlers w) ++ new /\
               Forall (made_by (gulp w)) new) /\
  (forall l, l <> _bundlers (gulp w) ->
             heap w' !! l = library_effect l (snd e) <$> heap w !! l).
Proof.
  cbv zeta. unfold step.
  destruct (advance_frame rev (fst e) w) as (Hc & Hh & Hb & _).
  destruct (handle_event_frame rev (snd e) (advance rev (fst e) w)) as (Hc' & Hnew & Hh').
  cbv zeta in *.
  assert (_bundlers (gulp (advance rev (fst e) w)) = _bundlers (gulp w)) as Hbl.
  { unfold config in Hc. injection Hc as ? ? ? ? ? ? ? ? ? ? ? ? ? Hbl. exact Hbl. }
  split; [congruence|]. split.
  - destruct Hnew as (new & Hn & Hf). exists new. rewrite Hn, Hb.
    split; [reflexivity|]. eapply Forall_impl; [exact Hf|].
    intros i. apply made_by_config. symmetry. exact Hc.
  - intros l Hl. rewrite Hh', Hh; [reflexivity|]. rewrite Hbl. exact Hl.
Qed.

Lemma run_frame rev es : forall w,
  let w' := run rev es w in
  config (gulp w') = config (gulp w) /\
  (exists new, identity <$> bundlers w' = (identity <$> bundlers w) ++ new /\
               Forall (made_by (gulp w)) new) /\
  (forall l, l <> _bundlers (gulp w) -> heap w' !! l = stored l es <$> heap w !! l).
Proof.
  induction es as [|e es IH]; intros w; cbn [run fold_left stored].
  - repeat split.
    + exists []. rewrite app_nil_r. split; [reflexivity|constructor].
    + intros l _. rewrite option_fmap_id. reflexivity.
  - destruct (step_frame rev e w) as (Hc & (n1 & Hn1 & Hf1) & Hh).
    destruct (IH (step rev e w)) as (Hc' & (n2 & Hn2 & Hf2) & Hh').
    cbv zeta in *. fold (run rev es (step rev e w)).
    assert (_bundlers (gulp (step rev e w)) = _bundlers (gulp w)) as Hbl.
    { unfold config in Hc. injection Hc as ? ? ? ? ? ? ? ? ? ? ? ? ? Hbl. exact Hbl. }
    split; [congruence|]. split.
    + exists (n1 ++ n2). rewrite Hn2, Hn1, app_assoc. split; [reflexivity|].
      apply Forall_app. split; [exact Hf1|].
      eapply Forall_impl; [exact Hf2|]. intros i. apply made_by_config.
      symmetry. exact Hc.
    + intros l Hl. rewrite Hh' by (rewrite Hbl; exact Hl). rewrite Hh by exact Hl.
      rewrite <- option_fmap_compose. reflexivity.
Qed.

(** ** The shared caches *)

Lemma new_caches rev options h :
  boolean_or_true (Options.primeCache (default Options.empty options)) = true ->
  boolean_or_true (Options.shareWatchers (default Options.empty options)) = true ->
  bundlers_allocated options h = true ->
  let w := new_GulpWatchify rev options h in
  _depsCache (gulp w) = JRef (length h) /\
  _packageCache (gulp w) = JRef (S (length h)) /\
  _watchers (gulp w) = JRef (S (S (length h))) /\
  (forall l, l ∈ [length h; S (length h); S (S (length h))] ->
             heap w !! l = Some ∅ /\ l <> _bundlers (gulp w)) /\
  bundlers w = [].
Proof.
  intros Hp Hs Ha. cbv zeta. unfold new_GulpWatchify, bundlers_allocated in *.
  rewrite Hp, Hs.
  destruct (Options.bundlers (default Options.empty options)) as [l0|];
    world_fields; rewrite ?length_app; cbn [length];
    (split; [reflexivity|]); (split; [reflexivity|]);
    (split; [f_equal; lia|]); (split; [|reflexivity]).
  - apply Nat.ltb_lt in Ha. intros l Hl.
    rewrite <- !app_assoc. cbn [app].
    rewrite !elem_of_cons in Hl. destruct Hl as [-> | [-> | [-> | Hl]]];
      [| | |inversion Hl]; (split; [|lia]).
    + rewrite lookup_app_r, Nat.sub_diag by lia. reflexivity.
    + rewrite lookup_app_r by lia. replace (S (length h) - length h) with 1 by lia.
      reflexivity.
    + rewrite lookup_app_r by lia. replace (S (S (length h)) - length h) with 2 by lia.
      reflexivity.
  - intros l Hl.
    rewrite <- !app_assoc. cbn [app].
    rewrite !elem_of_cons in Hl. destruct Hl as [-> | [-> | [-> | Hl]]];
      [| | |inversion Hl]; (split; [|lia]).
    + rewrite lookup_app_r, Nat.sub_diag by lia. reflexivity.
    + rewrite lookup_app_r by lia. replace (S (length h) - length h) with 1 by lia.
      reflexivity.
    + rewrite lookup_app_r by lia. replace (S (S (length h)) - length h) with 2 by lia.
      reflexivity.
Qed.

Lemma bundler_opts_lookup g :
  bundler_opts g !! "cache" = Some (_depsCache g) /\
  bundler_opts g !! "pkgCache" = Some (_packageCache g) /\
  bundler_opts g !! "packageCache" = Some (_packageCache g) /\
  bundler_opts g !! "watchers" = Some (_watchers g).
Proof.
  unfold bundler_opts. repeat split.
  - rewrite !lookup_insert_ne by discriminate. apply lookup_insert_eq.
  - rewrite !lookup_insert_ne by discriminate. apply lookup_insert_eq.
  - rewrite lookup_insert_ne by discriminate. apply lookup_insert_eq.
  - apply lookup_insert_eq.
Qed.

(** C7.  With [primeCache] and [shareWatchers] left at their defaults, the
    constructor makes three fresh objects; every bundler made in any run is
    given references to exactly these as [cache], [pkgCache] /
    [packageCache] and [watchers]; and after the run each of the three
    holds what the bundler library stored into it and nothing else. *)
Theorem caches_shared_and_untouched rev options h es :
  boolean_or_true (Options.primeCache (default Options.empty options)) = true ->
  boolean_or_true (Options.shareWatchers (default Options.empty options)) = true ->
  bundlers_allocated options h = true ->
  let w := run rev es (new_GulpWatchify rev options h) in
  let deps := length h in
  let pkg := S (length h) in
  let wat := S (S (length h)) in
  (_depsCache (gulp w), _packageCache (gulp w), _watchers (gulp w))
    = (JRef deps, JRef pkg, JRef wat) /\
  (forall b, b ∈ bundlers w ->
     opts b !! "cache" = Some (JRef deps) /\
     opts b !! "pkgCache" = Some (JRef pkg) /\
     opts b !! "packageCache" = Some (JRef pkg) /\
     opts b !! "watchers" = Some (JRef wat)) /\
  (forall l, l ∈ [deps; pkg; wat] -> heap w !! l = Some (stored l es ∅)).
Proof.
  intros Hp Hs Ha w deps pkg wat.
  destruct (new_caches rev options h Hp Hs Ha) as (Hd & Hk & Hw & Hheap & Hnone).
  destruct (run_frame rev es (new_GulpWatchify rev options h))
    as (Hc & (new & Hnew & Hmade) & Hh).
  cbv zeta in *. fold w in Hc, Hnew, Hh.
  set (w0 := new_GulpWatchify rev options h) in *.
  assert (_depsCache (gulp w) = _depsCache (gulp w0) /\
          _packageCache (gulp w) = _packageCache (gulp w0) /\
          _watchers (gulp w) = _watchers (gulp w0)) as (Ed & Ek & Ew).
  { unfold config in Hc. injection Hc as ? ? ? ? ? ? ? ? ? ? ? ? ? ?. auto. }
  split; [rewrite Ed, Ek, Ew, Hd, Hk, Hw; reflexivity|]. split.
  - intros b Hb.
    assert (made_by (gulp w0) (identity b)) as Hm.
    { rewrite Hnone in Hnew. cbn in Hnew.
      eapply Forall_forall; [exact Hmade|].
      rewrite <- Hnew. apply list_elem_of_fmap. exists b. split; [reflexivity|exact Hb]. }
    unfold made_by, identity in Hm. cbn in Hm. injection Hm as _ Ho.
    rewrite Ho. destruct (bundler_opts_lookup (gulp w0)) as (H1 & H2 & H3 & H4).
    rewrite H1, H2, H3, H4, Hd, Hk, Hw. repeat split; reflexivity.
  - intros l Hl. destruct (Hheap l Hl) as (Hl0 & Hne).
    rewrite Hh by exact Hne. rewrite Hl0. reflexivity.
Qed.

(** ** Bundle calls stay outstanding until answered *)

Lemma call_kept_handle rev ev w id c :
  calls w !! id = Some c ->
  (forall r, ev <> calls_back id r) ->
  calls (handle_event rev ev w) !! id = Some c.
Proof.
  intros Hc Hev.
  assert (forall w0 more, calls w0 = calls w ++ more -> calls w0 !! id = Some c) as Hext.
  { intros w0 more ->. rewrite lookup_app_l; [exact Hc|].
    eapply lookup_lt_Some, Hc. }
  destruct ev as [ch|id' result|b|l key v|]; cbn [handle_event]; try exact Hc.
  - destruct (GulpWatchify_write_local rev ch w) as (_&_&_&_&_&_&_&_&_&_&_&(more&Hm&_)).
    eapply Hext, Hm.
  - destruct (calls w !! id') as [c'|] eqn:Hc'; [|exact Hc].
    destruct (outstanding c'); [|exact Hc].
    assert (id' <> id) as Hne by (intros ->; eapply Hev; reflexivity).
    set (w1 := with_calls _ w).
    assert (calls w1 !! id = Some c) as Hc1.
    { subst w1. world_fields. rewrite list_lookup_insert_ne by exact Hne. exact Hc. }
    assert (forall w0 more, calls w0 = calls w1 ++ more -> calls w0 !! id = Some c) as Hext1.
    { intros w0 more ->. rewrite lookup_app_l; [exact Hc1|].
      eapply lookup_lt_Some, Hc1. }
    destruct (callback c') as [f|s f].
    + destruct (firstBundled_local rev f result w1) as (_&_&_&_&_&_&_&_&_&_&_&(more&Hm&_)).
      eapply Hext1, Hm.
    + destruct (rebundled_local rev s f result w1) as (_&_&_&_&_&_&_&_&_&(more&Hm&_)).
      eapply Hext1, Hm.
  - destruct (bundlers w !! b) as [x|]; [|exact Hc].
    destruct (_handleUpdate_frame rev (entry x) b (emit (emit_update (entry x) b) w))
      as (_ & _ & _ & _ & (more & Hm & _) & _).
    eapply Hext, Hm.
Qed.

Lemma call_kept_step rev e w id c :
  calls w !! id = Some c ->
  (forall r, snd e <> calls_back id r) ->
  calls (step rev e w) !! id = Some c.
Proof.
  intros Hc Hev. unfold step. apply call_kept_handle; [|exact Hev].
  destruct (advance_frame rev (fst e) w) as (_ & _ & _ & Hcalls & _).
  cbv zeta in Hcalls. rewrite Hcalls. exact Hc.
Qed.

Lemma call_kept_run rev es : forall w id c,
  calls w !! id = Some c ->
  unanswered id es = true ->
  calls (run rev es w) !! id = Some c.
Proof.
  induction es as [|e es IH]; intros w id c Hc Hun; cbn; [exact Hc|].
  cbn in Hun. apply andb_true_iff in Hun. destruct Hun as [He Hes].
  apply IH; [|exact Hes]. apply call_kept_step; [exact Hc|].
  intros r Heq. rewrite Heq in He. rewrite Nat.eqb_refl in He. discriminate He.
Qed.

(** ** A successful first bundle *)

Lemma transform_gulp rev c w :
  gulp (GulpWatchify_transform rev c w) = gulp w \/
  GulpWatchify_transform rev c w = gw_called_back (Some expected_a_path) w.
Proof.
  destruct (negb (chunk_truthy c) || negb (truthy (chunk_path c))) eqn:Hg.
  - right. apply transform_rejects.
    apply orb_true_iff in Hg. destruct Hg as [Hg|Hg]; apply negb_true_iff in Hg; auto.
  - left. apply orb_false_iff in Hg. destruct Hg as [_ Hg2].
    apply negb_false_iff in Hg2. destruct c as [v|f]; [discriminate Hg2|].
    apply (transform_accepts rev f w Hg2).
Qed.

(** What [done()] does to the main stream's two sides. *)
Lemma GulpWatchify_done_ok rev w :
  let w' := GulpWatchify_done rev None w in
  pushed (gw_stream (gulp w')) = pushed (gw_stream (gulp w)) /\
  exists rest, callbacks (gw_stream (gulp w')) =
               callbacks (gw_stream (gulp w)) ++ None :: rest /\
               (rest = [] \/ rest = [Some expected_a_path]).
Proof.
  cbv zeta. unfold GulpWatchify_done. cbv zeta.
  destruct (take_next (gw_stream (gulp (gw_called_back None w)))) as [[c st]|] eqn:Hn.
  - unfold take_next in Hn. world_fields. cbn in Hn.
    destruct (buffered (gw_stream (gulp w))) as [|c' rest]; [discriminate Hn|].
    injection Hn as <- <-.
    match goal with |- context [GulpWatchify_transform rev c' ?w0] =>
      destruct (transform_gulp rev c' w0) as [-> | ->] end.
    + world_fields. cbn. split; [reflexivity|]. exists []. auto.
    + world_fields. cbn. split; [reflexivity|]. exists [Some expected_a_path].
      rewrite <- app_assoc. auto.
  - world_fields. cbn. split; [reflexivity|]. exists []. auto.
Qed.

Lemma firstBundled_success rev f source w :
  let w' := firstBundled rev f (Bundled source) w in
  pushed (gw_stream (gulp w')) =
    pushed (gw_stream (gulp w)) ++ [Some (_createBundleFile f source)] /\
  exists rest, callbacks (gw_stream (gulp w')) =
               callbacks (gw_stream (gulp w)) ++ None :: rest /\
               (rest = [] \/ rest = [Some expected_a_path]).
Proof.
  cbv zeta. unfold firstBundled. cbv zeta.
  match goal with |- context [GulpWatchify_done rev None ?w0] =>
    destruct (GulpWatchify_done_ok rev w0) as (Hp & rest & Hc & Hrest);
    cbv zeta in Hp, Hc; rewrite Hp, Hc;
    (split; [|exists rest; split; [|exact Hrest]])
  end; destruct (verbose (gulp w)); reflexivity.
Qed.


(** ** Streams and calls in reachable states *)

Lemma flags_of_static (l l' : list ReBundle) :
  static <$> l' = static <$> l -> rb_skipUpdateError <$> l' = rb_skipUpdateError <$> l.
Proof.
  intros H. change rb_skipUpdateError with ((fun t => snd (fst t)) ∘ static).
  rewrite !list_fmap_compose, H. reflexivity.
Qed.

Lemma config_skipUpdateError g g' :
  config g' = config g -> _skipUpdateError g' = _skipUpdateError g.
Proof. unfold config. intros H. injection H as ? ? ? ? ? ? ? ? ? ? ? ? ? ?. assumption. Qed.

Lemma call_stream_ok_mono n m c : n <= m -> call_stream_ok n c -> call_stream_ok m c.
Proof. unfold call_stream_ok. destruct (callback c); [auto|lia]. Qed.

Lemma wired_new rev options h : wired rev (new_GulpWatchify rev options h).
Proof.
  destruct (new_idle rev options h) as (_ & Hr & _ & Hc & _). cbv zeta in *.
  unfold wired. rewrite Hr, Hc. split; [constructor|intros _; constructor].
Qed.

Lemma wired_advance rev t w : wired rev w -> wired rev (advance rev t w).
Proof.
  intros (Hc & Hf).
  destruct (advance_frame rev t w) as (Hcf & _ & _ & Hcalls & _ & _ & Hl & _ & Hst).
  cbv zeta in *. unfold wired.
  rewrite Hcalls, Hl, (flags_of_static _ _ Hst), (config_skipUpdateError _ _ Hcf).
  split; assumption.
Qed.

Lemma wired_gulp_local rev w0 w w' :
  gulp w0 = gulp w -> rebundles w0 = rebundles w ->
  Forall (call_stream_ok (length (rebundles w))) (calls w0) ->
  gulp_local w0 w' -> wired rev w -> wired rev w'.
Proof.
  intros Hg Hr Hc0 (Hcf & _ & _ & _ & _ & _ & Hr' & _ & _ & _ & _ & (more & Hm & Hmf)) (_ & Hf).
  unfold wired. rewrite Hr', Hr, Hm, (config_skipUpdateError _ _ Hcf), Hg.
  split; [|exact Hf]. apply Forall_app. split; [exact Hc0|].
  rewrite <- Hr. exact Hmf.
Qed.

Lemma wired_rebundle_local rev w0 w w' :
  gulp w0 = gulp w -> rebundles w0 = rebundles w ->
  Forall (call_stream_ok (length (rebundles w))) (calls w0) ->
  rebundle_local w0 w' -> wired rev w -> wired rev w'.
Proof.
  intros Hg Hr Hc0 (Hg' & _ & _ & _ & _ & _ & Hl & _ & Hst & (more & Hm & Hmf)) (_ & Hf).
  unfold wired. rewrite Hl, Hr, Hm, (flags_of_static _ _ Hst), Hg', Hg, Hr.
  split; [|exact Hf]. apply Forall_app. split; [exact Hc0|].
  rewrite <- Hr. exact Hmf.
Qed.

Lemma wired_handle rev ev w : wired rev w -> wired rev (handle_event rev ev w).
Proof.
  intros Hw. pose proof Hw as (Hc & Hf).
  destruct ev as [ch|id result|b|l key v|]; cbn [handle_event]; try exact Hw.
  - eapply wired_gulp_local; [| | |apply GulpWatchify_write_local|exact Hw];
      [reflexivity|reflexivity|exact Hc].
  - destruct (calls w !! id) as [c|] eqn:Hid; [|exact Hw].
    destruct (outstanding c); [|exact Hw].
    assert (Forall (call_stream_ok (length (rebundles w)))
              (<[id:=mkBundleCall (on_bundler c) (callback c) false]> (calls w))) as Hc'.
    { apply Forall_insert; [exact Hc|].
      eapply Forall_lookup_1 in Hc; [|exact Hid]. exact Hc. }
    destruct (callback c) as [f|s f] eqn:Hcb.
    + eapply wired_gulp_local; [| | |apply firstBundled_local|exact Hw];
        [reflexivity|reflexivity|exact Hc'].
    + eapply wired_rebundle_local; [| | |apply rebundled_local|exact Hw];
        [reflexivity|reflexivity|exact Hc'].
  - destruct (bundlers w !! b) as [x|]; [|exact Hw].
    destruct (_handleUpdate_frame rev (entry x) b (emit (emit_update (entry x) b) w))
      as (Hcf & _ & _ & _ & (more & Hm & Hmf) & Hle & (new & Hnew & Hnf)).
    cbv zeta in *. unfold wired.
    rewrite Hm, Hnew, (config_skipUpdateError _ _ Hcf). world_fields. split.
    + apply Forall_app. split; [|exact Hmf].
      eapply Forall_impl; [exact Hc|]. intros c. apply call_stream_ok_mono.
      exact Hle.
    + intros Hrev. apply Forall_app. split; [apply Hf, Hrev|apply Hnf, Hrev].
Qed.

Lemma wired_run rev options h es :
  wired rev (run rev es (new_GulpWatchify rev options h)).
Proof.
  apply run_invariant; [|apply wired_new].
  intros e w Hw. apply wired_handle, wired_advance, Hw.
Qed.

Lemma run_config rev options h es :
  config (gulp (run rev es (new_GulpWatchify rev options h))) =
  config (gulp (new_GulpWatchify rev options h)).
Proof. apply run_frame. Qed.

(** ** The flow of a ReBundle stream *)

Lemma files_app {O} (l1 l2 : list (option O)) : files (l1 ++ l2) = files l1 ++ files l2.
Proof. unfold files. apply omap_app. Qed.

Lemma flows_alter_kept f s w :
  (forall x, flow (f x) = flow x) -> flows (on_rebundle s f w) = flows w.
Proof. intros H. unfold flows. world_fields. apply fmap_alter_kept, H. Qed.

Lemma flow_push_None r : flow (rb_with_stream (push None (rb_stream r)) r) = flow r.
Proof.
  destruct r as [[] ? ? ? ? ?]. unfold flow, push.
  cbn [rb_stream rb_with_stream transforming buffered written callbacks pushed].
  rewrite files_app. cbn. rewrite app_nil_r. reflexivity.
Qed.

Lemma flows_finishIfResolved s w : flows (finishIfResolved s w) = flows w.
Proof.
  unfold finishIfResolved. cbv zeta.
  destruct (rebundles _ !! s) as [r|]; [destruct (_ =? _)%Z|]; unfold rb_push;
    rewrite ?flows_alter_kept; try reflexivity; try (intros []; reflexivity).
  apply flow_push_None.
Qed.

Lemma flows_ReBundle_transform rev s f w : flows (ReBundle_transform rev s f w) = flows w.
Proof.
  unfold ReBundle_transform. destruct (rebundles w !! s) as [r|]; [|reflexivity].
  destruct rev, (rb_verbose r); unfold flows; world_fields;
    rewrite ?fmap_alter_kept by (intros []; reflexivity); reflexivity.
Qed.

Lemma flows_ReBundle_done rev s er w :
  flows (ReBundle_done rev s er w) = alter (done_flow er) s (flows w).
Proof.
  unfold ReBundle_done. cbv zeta.
  assert (forall g, (forall x, flow (g x) = done_flow er (flow x)) ->
                    flow <$> alter g s (rebundles w) = alter (done_flow er) s (flows w)) as Huni.
  { intros g Hg. apply list_fmap_alter. apply Forall_forall. intros x _. apply Hg. }
  destruct er as [e|].
  - unfold flows at 1. world_fields. apply Huni. intros [[] ? ? ? ? ?]. reflexivity.
  - world_fields. rewrite list_lookup_alter_eq.
    destruct (rebundles w !! s) as [r|] eqn:Hr; cbn [fmap option_fmap option_map].
    2:{ unfold flows. world_fields. rewrite !list_alter_id_None; try reflexivity;
        [rewrite list_lookup_fmap, Hr; reflexivity|exact Hr]. }
    unfold take_next. cbn [rb_stream rb_with_stream called_back buffered].
    destruct (buffered (rb_stream r)) as [|c rest] eqn:Hb.
    + unfold flows at 1. world_fields.
      erewrite (list_alter_ext (done_flow None)
                  (fun fl => let '(t, b, wr, cb, fs) := fl in (false, b, wr, cb ++ [None], fs))
                  (flows w) _ s); [| |reflexivity].
      * apply list_fmap_alter. apply Forall_forall. intros [[] ? ? ? ? ?] _. reflexivity.
      * intros fl Hfl. unfold flows in Hfl. rewrite list_lookup_fmap, Hr in Hfl.
        injection Hfl as <-. unfold flow, done_flow. rewrite Hb. reflexivity.
    + rewrite flows_ReBundle_transform. unfold flows at 1. world_fields.
      rewrite list_alter_alter_eq.
      erewrite (list_alter_ext _
                  (fun x => rb_with_stream
                              (mkTransform true rest (written (rb_stream x))
                                 (pushed (rb_stream x)) (callbacks (rb_stream x) ++ [None])) x)
                  (rebundles w) _ s); [| |reflexivity].
      2:{ intros x Hx. rewrite Hr in Hx. injection Hx as <-. reflexivity. }
      erewrite (list_alter_ext (done_flow None)
                  (fun fl => let '(t, b, wr, cb, fs) := fl in (true, rest, wr, cb ++ [None], fs))
                  (flows w) _ s); [| |reflexivity].
      * apply list_fmap_alter. apply Forall_forall. intros [[] ? ? ? ? ?] _. reflexivity.
      * intros fl Hfl. unfold flows in Hfl. rewrite list_lookup_fmap, Hr in Hfl.
        injection Hfl as <-. unfold flow, done_flow. rewrite Hb. reflexivity.
Qed.

Lemma flows_rebundled_failed rev s f err w r :
  rev <> index_js ->
  rebundles w !! s = Some r ->
  flows (rebundled rev s f (Failed err) w) =
  alter (done_flow (if rb_skipUpdateError r then None
                    else Some (PluginError_wrap "gulp-watchify" err))) s (flows w).
Proof.
  intros Hrev Hr. unfold rebundled. rewrite Hr.
  destruct rev; [contradiction| |]; destruct (rb_skipUpdateError r); cbn [negb];
    rewrite ?flows_finishIfResolved, flows_ReBundle_done; reflexivity.
Qed.

Lemma flows_rebundled_ok rev s f source w r :
  rebundles w !! s = Some r ->
  flows (rebundled rev s f (Bundled source) w) =
  alter (done_flow None ∘ push_flow (_createBundleFile f source)) s (flows w).
Proof.
  intros Hr. unfold rebundled. rewrite Hr. cbv zeta.
  assert (forall w0, flows w0 = alter (push_flow (_createBundleFile f source)) s (flows w) ->
            flows (match rev with
                   | part_000 => finishIfResolved s (ReBundle_done rev s None w0)
                   | _ => ReBundle_done rev s None w0
                   end) =
            alter (done_flow None ∘ push_flow (_createBundleFile f source)) s (flows w)) as H.
  { intros w0 Hw0. rewrite <- list_alter_alter_eq, <- Hw0.
    destruct rev; rewrite ?flows_finishIfResolved; apply flows_ReBundle_done. }
  apply H.
  assert (flows (rb_push s (Some (_createBundleFile f source)) w) =
          alter (push_flow (_createBundleFile f source)) s (flows w)) as Hp.
  { unfold flows. world_fields. apply list_fmap_alter. apply Forall_forall.
    intros [[] ? ? ? ? ?] _. unfold flow, push_flow, push.
    cbn [rb_stream rb_with_stream transforming buffered written callbacks pushed].
    rewrite files_app. reflexivity. }
  destruct (rb_verbose r); exact Hp.
Qed.

Lemma flows_ReBundle_write rev s f w :
  flows (ReBundle_write rev s f w) = alter (write_flow f) s (flows w).
Proof.
  unfold ReBundle_write.
  destruct (rebundles w !! s) as [r|] eqn:Hr.
  2:{ rewrite list_alter_id_None; [reflexivity|].
      unfold flows. rewrite list_lookup_fmap, Hr. reflexivity. }
  assert (flows (on_rebundle s (fun r => rb_with_stream (accept f (rb_stream r)) r) w) =
          alter (write_flow f) s (flows w)) as Ha.
  { unfold flows. world_fields. apply list_fmap_alter. apply Forall_forall.
    intros [[[] ? ? ? ?] ? ? ? ? ?] _; reflexivity. }
  destruct (transforming (rb_stream r)); [exact Ha|].
  rewrite flows_ReBundle_transform. exact Ha.
Qed.

Lemma logged_finishIfResolved s w : logged (finishIfResolved s w) = logged w.
Proof.
  unfold finishIfResolved. cbv zeta.
  destruct (rebundles _ !! s) as [r|]; [destruct (_ =? _)%Z|]; reflexivity.
Qed.

Lemma logged_ReBundle_done rev s er w :
  exists rest, logged (ReBundle_done rev s er w) = logged w ++ rest.
Proof.
  unfold ReBundle_done. cbv zeta.
  destruct er; [exists []; rewrite app_nil_r; reflexivity|].
  destruct (rebundles _ !! s) as [r|]; [|exists []; rewrite app_nil_r; reflexivity].
  destruct (take_next _) as [[c st]|]; [|exists []; rewrite app_nil_r; reflexivity].
  unfold ReBundle_transform. world_fields.
  destruct (alter _ s _ !! s) as [r'|]; [|exists []; rewrite app_nil_r; reflexivity].
  destruct rev, (rb_verbose r'); world_fields;
    first [ exists []; rewrite app_nil_r; reflexivity | eexists; reflexivity ].
Qed.

Lemma boolean_or_true_false v : boolean_or_true v = false <-> v = JBool false.
Proof.
  destruct v as [| |[]| | | |]; cbn; split; intros H; congruence.
Qed.


(** ** Rebundling switched off *)

Lemma config_rebundle g g' : config g' = config g -> _rebundle g' = _rebundle g.
Proof. unfold config. intros H. injection H as ? ? ? ? ? ? ? ? ? ? ? ? ? ?. assumption. Qed.

Lemma _handleUpdate_off rev f b w :
  truthy (_rebundle (gulp w)) = false -> _handleUpdate rev f b w = w.
Proof. intros H. unfold _handleUpdate. rewrite H. reflexivity. Qed.

Lemma untouched_step rev e w :
  truthy (_rebundle (gulp w)) = false -> untouched w -> untouched (step rev e w).
Proof.
  intros Hoff (Hr & Ht & Hn & Hs & Hto & Hh).
  assert (advance rev (fst e) w = with_now (Z.max (now w) (fst e)) w) as Hadv.
  { unfold advance. rewrite Ht. cbn. destruct w; cbn in *; subst; reflexivity. }
  unfold step. rewrite Hadv. set (w1 := with_now _ w).
  assert (untouched w1) as Hu1 by (repeat split; assumption).
  assert (truthy (_rebundle (gulp w1)) = false) as Hoff1 by exact Hoff.
  clearbody w1. clear - Hu1 Hoff1. destruct Hu1 as (Hr & Ht & Hn & Hs & Hto & Hh).
  assert (forall w0 w', rebundles w0 = rebundles w1 -> timers w0 = timers w1 ->
            emitted w0 = emitted w1 -> gulp w0 = gulp w1 -> next_handle w0 = next_handle w1 ->
            gulp_local w0 w' -> untouched w') as Hgl.
  { intros w0 w' E1 E2 E3 E4 E5 (_ & Hs' & Hto' & Ht' & Hh' & _ & Hr' & He' & _).
    unfold untouched, rebundle_notifications.
    rewrite Hr', Ht', He', Hs', Hto', Hh', E1, E2, E3, E4, E5.
    repeat split; assumption. }
  destruct (snd e) as [ch|id result|b|l key v|]; cbn [handle_event];
    try (repeat split; assumption).
  - eapply Hgl; [| | | | |apply GulpWatchify_write_local]; reflexivity.
  - destruct (calls w1 !! id) as [c|]; [|repeat split; assumption].
    destruct (outstanding c); [|repeat split; assumption].
    destruct (callback c) as [f|s f].
    + eapply Hgl; [| | | | |apply firstBundled_local]; reflexivity.
    + match goal with |- untouched (rebundled rev s f result ?w0) =>
        destruct (rebundled_local rev s f result w0)
          as (Hg' & Ht' & Hh' & _ & _ & He' & Hl' & _) end.
      unfold untouched, rebundle_notifications. rewrite Hg', Ht', Hh', He'.
      repeat split; try assumption.
      apply nil_length_inv. rewrite Hl'. world_fields. rewrite Hr. reflexivity.
  - destruct (bundlers w1 !! b) as [x|]; [|repeat split; assumption].
    rewrite _handleUpdate_off by exact Hoff1.
    unfold untouched, rebundle_notifications. world_fields.
    rewrite omap_app. fold (rebundle_notifications w1). rewrite Hn.
    repeat split; assumption.
Qed.

Lemma untouched_run rev es : forall w,
  truthy (_rebundle (gulp w)) = false -> untouched w -> untouched (run rev es w).
Proof.
  induction es as [|e es IH]; intros w Hoff Hu; cbn; [exact Hu|].
  apply IH; [|apply untouched_step; assumption].
  destruct (step_frame rev e w) as (Hc & _). cbv zeta in Hc.
  rewrite (config_rebundle _ _ Hc). exact Hoff.
Qed.

(** With [rebundle: false] in part_000 and part_001, an update event is a
    no-op for the rebundle machinery, in every state of every run. *)
Lemma rebundle_false_is_off rev options h es :
  rev <> index_js ->
  Options.rebundle (default Options.empty options) = JBool false ->
  let w := run rev es (new_GulpWatchify rev options h) in
  (forall f b, _handleUpdate rev f b w = w) /\ untouched w.
Proof.
  intros Hrev Hopt w.
  assert (truthy (_rebundle (gulp (new_GulpWatchify rev options h))) = false) as Hoff.
  { rewrite new_rebundle, Hopt. destruct rev; [contradiction| |]; reflexivity. }
  split.
  - intros f b. apply _handleUpdate_off. subst w.
    rewrite (config_rebundle _ _ (run_config rev options h es)). exact Hoff.
  - apply untouched_run; [exact Hoff|].
    destruct (new_idle rev options h) as (Ht & Hr & _ & _ & He & Hs & Hto & _ & Hn).
    cbv zeta in *. unfold untouched, rebundle_notifications.
    rewrite Ht, Hr, He, Hs, Hto, Hn. repeat split; reflexivity.
Qed.

(** ** A failed first bundle *)

Lemma first_failure_is_fatal rev w id b f err :
  rev <> index_js ->
  calls w !! id = Some (mkBundleCall b (firstBundleCallback f) true) ->
  let w' := handle_event rev (calls_back id (Failed err)) w in
  callbacks (gw_stream (gulp w')) =
    callbacks (gw_stream (gulp w)) ++ [Some (PluginError_wrap "gulp-watchify" err)] /\
  pushed (gw_stream (gulp w')) = pushed (gw_stream (gulp w)).
Proof.
  intros Hrev Hcall. cbv zeta. cbn [handle_event]. rewrite Hcall.
  cbn [outstanding callback on_bundler].
  destruct rev; [contradiction| |]; split; reflexivity.
Qed.

(** ** What has been written to the ReBundle streams *)

Lemma writes_flows w : writes w = (fun fl => snd (fst (fst fl))) <$> flows w.
Proof. unfold writes, flows. rewrite <- list_fmap_compose. reflexivity. Qed.

Lemma writes_alter_flows g s w w' :
  (forall fl, snd (fst (fst (g fl))) = snd (fst (fst fl))) ->
  flows w' = alter g s (flows w) -> writes w' = writes w.
Proof.
  intros Hg Hfl. rewrite !writes_flows, Hfl. apply fmap_alter_kept, Hg.
Qed.

Lemma writes_same_flows w w' : flows w' = flows w -> writes w' = writes w.
Proof. intros H. rewrite !writes_flows, H. reflexivity. Qed.

Lemma writes_ReBundle_done rev s er w : writes (ReBundle_done rev s er w) = writes w.
Proof.
  eapply writes_alter_flows; [|apply flows_ReBundle_done].
  intros [[[[t b] wr] cb] fs]. unfold done_flow. destruct er, b; reflexivity.
Qed.

Lemma writes_finishIfResolved s w : writes (finishIfResolved s w) = writes w.
Proof. apply writes_same_flows, flows_finishIfResolved. Qed.

Lemma writes_rb_push s x w : writes (rb_push s x w) = writes w.
Proof.
  unfold writes. world_fields. apply fmap_alter_kept. intros [[] ? ? ? ? ?]. reflexivity.
Qed.

Lemma writes_rebundled rev s f result w : writes (rebundled rev s f result w) = writes w.
Proof.
  unfold rebundled. destruct (rebundles w !! s) as [r|]; [|reflexivity].
  destruct result as [err|source].
  - destruct rev; unfold _handleError;
      repeat match goal with |- context [if ?c then _ else _] => destruct c end;
      rewrite ?writes_finishIfResolved, ?writes_ReBundle_done; reflexivity.
  - cbv zeta.
    destruct rev, (rb_verbose r);
      rewrite ?writes_finishIfResolved, ?writes_ReBundle_done;
      apply (writes_rb_push s _ w).
Qed.

Lemma writes_ReBundle_write rev s f w :
  writes (ReBundle_write rev s f w) = alter (fun ws => ws ++ [f]) s (writes w).
Proof.
  rewrite !writes_flows, flows_ReBundle_write.
  apply list_fmap_alter. apply Forall_forall.
  intros [[[[[] b] wr] cb] fs] _; reflexivity.
Qed.

Lemma writes_timed_out rev x w : writes (timed_out rev x w) = writes w.
Proof.
  unfold timed_out.
  destruct rev; [apply (writes_rb_push (closes x) None w)
                |apply (writes_rb_push (closes x) None w)|].
  change (writes (finishIfResolved (closes x) w) = writes w).
  apply writes_finishIfResolved.
Qed.

Lemma writes_opened rev b w :
  writes (opened rev b w) =
  match _rebundleStream (gulp w) with
  | Some _ => writes w
  | None => writes w ++ [[]]
  end.
Proof.
  unfold opened.
  destruct (clearTimeout_frame (_rebundleTimeout (gulp w)) w) as (_ & Hr & _).
  cbv zeta in *.
  destruct (_rebundleStream (gulp w)) as [r|].
  - unfold writes. rewrite Hr. reflexivity.
  - unfold writes. destruct rev; world_fields;
      rewrite ?fmap_alter_kept by (intros []; reflexivity);
      rewrite Hr, fmap_app; reflexivity.
Qed.

Lemma notifications_opened rev b w :
  rebundle_notifications (opened rev b w) =
  match _rebundleStream (gulp w) with
  | Some _ => rebundle_notifications w
  | None => rebundle_notifications w ++ [length (rebundles w)]
  end.
Proof.
  unfold opened, rebundle_notifications.
  destruct (clearTimeout_frame (_rebundleTimeout (gulp w)) w) as (_ & Hr & _ & _ & He & _).
  cbv zeta in *.
  destruct (_rebundleStream (gulp w)) as [r|].
  - rewrite He. reflexivity.
  - destruct rev; world_fields; rewrite omap_app, He, Hr; reflexivity.
Qed.

Lemma length_opened rev b w :
  length (rebundles (opened rev b w)) =
  match _rebundleStream (gulp w) with
  | Some _ => length (rebundles w)
  | None => S (length (rebundles w))
  end.
Proof.
  rewrite <- (length_fmap (fun r => written (rb_stream r))).
  fold (writes (opened rev b w)). rewrite writes_opened.
  destruct (_rebundleStream (gulp w)); unfold writes;
    rewrite ?length_app, length_fmap; cbn; lia.
Qed.

(** [_handleUpdate] when rebundling is on, seen from outside. *)
Lemma _handleUpdate_on rev f b w :
  timer_inv w ->
  truthy (_rebundle (gulp w)) = true ->
  let w' := _handleUpdate rev f b w in
  let target := update_target w in
  _rebundleStream (gulp w') = Some target /\
  timers w' = [mkTimer (next_handle w) (now w + after (rebundleDelay rev (gulp w))) target] /\
  writes w' = alter (fun ws => ws ++ [f]) target
                (match _rebundleStream (gulp w) with
                 | Some _ => writes w
                 | None => writes w ++ [[]]
                 end) /\
  rebundle_notifications w' =
    match _rebundleStream (gulp w) with
    | Some _ => rebundle_notifications w
    | None => rebundle_notifications w ++ [length (rebundles w)]
    end /\
  length (rebundles w') =
    match _rebundleStream (gulp w) with
    | Some _ => length (rebundles w)
    | None => S (length (rebundles w))
    end /\
  now w' = now w.
Proof.
  intros Hinv He. cbv zeta. rewrite _handleUpdate_stages by exact He. cbv zeta.
  destruct (opened_facts rev b w Hinv) as (Ht & Hs & Hlt & Hnow & Hn & _).
  destruct (ReBundle_write_local rev (update_target w) f (opened rev b w))
    as (Hg' & Ht' & Hn' & Hnow' & _ & He' & Hl' & _).
  cbv zeta in *. unfold setTimeout. world_fields.
  rewrite Hg', Ht', Ht, Hn', Hn, Hnow', Hnow, Hs.
  split; [reflexivity|]. split; [reflexivity|]. split.
  { unfold writes at 1. world_fields. fold (writes (ReBundle_write rev (update_target w) f (opened rev b w))).
    rewrite writes_ReBundle_write, writes_opened. reflexivity. }
  split.
  { unfold rebundle_notifications at 1. world_fields. rewrite He'.
    apply notifications_opened. }
  split; [|reflexivity].
  rewrite Hl'. apply length_opened.
Qed.

(** ** Bursts of updates *)

Lemma config_close_delay rev w w' :
  config (gulp w') = config (gulp w) -> close_delay rev w' = close_delay rev w.
Proof.
  unfold close_delay, rebundleDelay, config. intros H.
  injection H as ? ? ? ? ? ? ? Hd ? ? ? ? ? ?. rewrite Hd. reflexivity.
Qed.

Lemma known_entry (bundlers0 : list Bundler) more w b :
  identity <$> bundlers w = (identity <$> bundlers0) ++ more ->
  b < length bundlers0 ->
  exists x, bundlers w !! b = Some x /\ entry <$> bundlers0 !! b = Some (entry x).
Proof.
  intros Hid Hb.
  assert ((identity <$> bundlers w) !! b = (identity <$> bundlers0) !! b) as Hl.
  { rewrite Hid. apply lookup_app_l. rewrite length_fmap. exact Hb. }
  rewrite !list_lookup_fmap in Hl.
  destruct (lookup_lt_is_Some_2 _ _ Hb) as [x0 Hx0]. rewrite Hx0 in Hl |- *.
  destruct (bundlers w !! b) as [x|]; [|discriminate Hl].
  exists x. split; [reflexivity|]. cbn in Hl |- *. unfold identity in Hl.
  injection Hl as _ _ He. rewrite He. reflexivity.
Qed.

(** The first update of a burst. *)
Lemma burst_begins rev w t b x :
  timer_inv w ->
  truthy (_rebundle (gulp w)) = true ->
  (now w <= t)%Z ->
  (forall y, y ∈ timers w -> (deadline y <= t)%Z) ->
  bundlers w !! b = Some x ->
  in_burst rev (close_delay rev w) (length (rebundles w)) (rebundle_notifications w)
           (writes w) (identity <$> bundlers w) t t [entry x]
           (step rev (t, update b) w).
Proof.
  intros Hinv Hon Hnow Hdue Hb. unfold step. cbn [fst snd].
  assert (exists wa, advance rev t w = wa /\ timer_inv wa /\
            _rebundleStream (gulp wa) = None /\ timers wa = [] /\ now wa = t /\
            config (gulp wa) = config (gulp w) /\
            length (rebundles wa) = length (rebundles w) /\
            emitted wa = emitted w /\ writes wa = writes w /\
            bundlers wa = bundlers w) as (wa & -> & Hinva & Hsa & Hta & Hnowa & Hca & Hla & Hea & Hwa & Hba).
  { pose proof (timer_inv_advance rev t w Hinv) as Hinva.
    destruct (advance_cases rev t w Hinv) as [(y & Hy & Hd & Heq) | (Hlate & Heq)].
    - eexists. split; [reflexivity|]. split; [exact Hinva|]. rewrite Heq.
      match goal with |- context [timed_out rev y ?w0] =>
        destruct (timed_out_frame rev y w0) as (Ht' & Hn' & _ & Hs' & _ & Hc' & _ & Hl' & He' & _ & Hb' & _);
        pose proof (writes_timed_out rev y w0) as Hw' end.
      cbv zeta in *. rewrite Ht', Hn', Hs', Hc', Hl', He', Hw', Hb'. world_fields.
      repeat split; try reflexivity. lia.
    - eexists. split; [reflexivity|]. split; [exact Hinva|]. rewrite Heq.
      assert (timers w = []) as Ht0.
      { destruct (timers w) as [|y ys] eqn:Hty; [reflexivity|exfalso].
        assert (y ∈ y :: ys) as Hy by (apply list_elem_of_here).
        specialize (Hlate y Hy). specialize (Hdue y Hy). lia. }
      unfold timer_inv in Hinv. rewrite Ht0 in Hinv. world_fields.
      repeat split; try assumption; try reflexivity. lia. }
  cbn [handle_event]. rewrite Hba, Hb.
  set (wb := emit (emit_update (entry x) b) wa).
  assert (timer_inv wb) as Hinvb by exact Hinva.
  assert (truthy (_rebundle (gulp wb)) = true) as Honb.
  { change (gulp wb) with (gulp wa). rewrite (config_rebundle _ _ Hca). exact Hon. }
  destruct (_handleUpdate_on rev (entry x) b wb Hinvb Honb) as (Hs & Ht & Hw & Hn & Hl & Hnow').
  destruct (_handleUpdate_frame rev (entry x) b wb) as (Hc & _ & Hid & _).
  cbv zeta in *.
  change (_rebundleStream (gulp wb)) with (_rebundleStream (gulp wa)) in *.
  change (rebundles wb) with (rebundles wa) in *.
  change (writes wb) with (writes wa) in *.
  change (now wb) with (now wa) in *.
  change (gulp wb) with (gulp wa) in *.
  change (bundlers wb) with (bundlers wa) in *.
  assert (rebundle_notifications wb = rebundle_notifications w) as Hnb.
  { unfold rebundle_notifications. subst wb. world_fields.
    rewrite omap_app, Hea. cbn. apply app_nil_r. }
  assert (update_target wb = length (rebundles w)) as Htarget.
  { unfold update_target. change (gulp wb) with (gulp wa). rewrite Hsa.
    change (rebundles wb) with (rebundles wa). exact Hla. }
  rewrite Hsa in *. rewrite Htarget in *.
  assert (close_delay rev (_handleUpdate rev (entry x) b wb) = close_delay rev w) as Hd.
  { rewrite (config_close_delay rev wb _ Hc). apply config_close_delay. exact Hca. }
  unfold in_burst. split; [apply timer_inv_handleUpdate, Hinvb|].
  split; [rewrite (config_rebundle _ _ Hc), (config_rebundle _ _ Hca); exact Hon|].
  split; [exact Hd|]. split; [exact Hs|]. split.
  { eexists. rewrite Ht, Hnowa. fold (close_delay rev wa).
    rewrite (config_close_delay rev w wa Hca). reflexivity. }
  split; [rewrite Hl, Hla; reflexivity|].
  split; [rewrite Hn, Hnb, Hla; reflexivity|].
  split.
  { rewrite Hw, Hwa. rewrite alter_app_r_alt by (unfold writes; rewrite length_fmap; lia).
    unfold writes at 2. rewrite length_fmap, Nat.sub_diag. reflexivity. }
  split; [exists []; rewrite Hid, Hba, app_nil_r; reflexivity|].
  rewrite Hnow'. exact Hnowa.
Qed.

Lemma in_burst_gulp_local rev d stream notes0 writes0 bundlers0 last prev ws w w' :
  gulp_local w w' ->
  in_burst rev d stream notes0 writes0 bundlers0 last prev ws w ->
  in_burst rev d stream notes0 writes0 bundlers0 last prev ws w'.
Proof.
  intros Hl (Hinv & Hon & Hd & Hs & Ht & Hlen & Hn & Hw & (more & Hb) & Hnow).
  pose proof (timer_inv_gulp_local _ _ Hl Hinv) as Hinv'.
  destruct Hl as (Hc & Hs' & _ & Ht' & _ & Hnow' & Hr' & He' & (new & Hnew & _) & _).
  unfold in_burst, writes, rebundle_notifications in *.
  rewrite (config_rebundle _ _ Hc), (config_close_delay rev w w' Hc), Hs', Ht', Hr', He', Hnow'.
  repeat split; try assumption.
  exists (more ++ new). rewrite Hnew, Hb, app_assoc. reflexivity.
Qed.

Lemma in_burst_rebundle_local rev d stream notes0 writes0 bundlers0 last prev ws w w' :
  rebundle_local w w' -> writes w' = writes w ->
  in_burst rev d stream notes0 writes0 bundlers0 last prev ws w ->
  in_burst rev d stream notes0 writes0 bundlers0 last prev ws w'.
Proof.
  intros Hl Hw' (Hinv & Hon & Hd & Hs & Ht & Hlen & Hn & Hw & Hb & Hnow).
  pose proof (timer_inv_rebundle_local _ _ Hl Hinv) as Hinv'.
  destruct Hl as (Hg & Ht' & _ & Hnow' & _ & He' & Hl' & Hid & _).
  unfold in_burst, rebundle_notifications, close_delay in *.
  rewrite Hg, Ht', Hl', He', Hnow', Hw', Hid.
  repeat split; assumption.
Qed.

(** A later event of the burst. *)
Lemma burst_continues rev d stream notes0 writes0 (bundlers0 : list Bundler)
    last prev ws w t ev :
  in_burst rev d stream notes0 writes0 (identity <$> bundlers0) last prev ws w ->
  length writes0 = stream ->
  (prev <= t)%Z -> (t < last + d)%Z ->
  match ev with update b => b < length bundlers0 | _ => True end ->
  in_burst rev d stream notes0 writes0 (identity <$> bundlers0)
           (if is_update ev then t else last) t
           (ws ++ match ev with
                  | update b => option_list (entry <$> bundlers0 !! b)
                  | _ => []
                  end)
           (step rev (t, ev) w).
Proof.
  intros Hin Hlen0 Hprev Hwin Hknown.
  pose proof Hin as (Hinv & Hon & Hd & Hs & (h & Ht) & Hlen & Hn & Hw & (more & Hb) & Hnow).
  unfold step. cbn [fst snd].
  assert (advance rev t w = with_now t w) as ->.
  { destruct (advance_cases rev t w Hinv) as [(y & Hy & Hdue & _) | (_ & ->)].
    - rewrite Ht in Hy. injection Hy as <-. cbn in Hdue. lia.
    - rewrite Z.max_r by lia. reflexivity. }
  set (wa := with_now t w).
  assert (timer_inv wa) as Hinva.
  { unfold timer_inv in *. subst wa. world_fields. rewrite Ht in *. cbn in *.
    destruct Hinv as (? & ? & ? & ?). repeat split; assumption. }
  assert (in_burst rev d stream notes0 writes0 (identity <$> bundlers0) last t ws wa) as Hina.
  { unfold in_burst. repeat split; try assumption; try reflexivity.
    - exists h. exact Ht.
    - exists more. exact Hb. }
  destruct ev as [ch|id result|b|l key v|]; cbn [handle_event is_update];
    rewrite ?app_nil_r.
  - eapply in_burst_gulp_local; [apply GulpWatchify_write_local|exact Hina].
  - destruct (calls wa !! id) as [c|]; [|exact Hina].
    destruct (outstanding c); [|exact Hina].
    destruct (callback c) as [f|s f].
    + eapply in_burst_gulp_local; [apply firstBundled_local|exact Hina].
    + eapply in_burst_rebundle_local;
        [apply rebundled_local|apply writes_rebundled|exact Hina].
  - destruct (known_entry bundlers0 more wa b Hb Hknown) as (x & Hx & Hentry).
    rewrite Hx, Hentry. cbn [option_list].
    set (wb := emit (emit_update (entry x) b) wa).
    assert (timer_inv wb) as Hinvb by exact Hinva.
    assert (truthy (_rebundle (gulp wb)) = true) as Honb by exact Hon.
    destruct (_handleUpdate_on rev (entry x) b wb Hinvb Honb)
      as (Hs' & Ht' & Hw' & Hn' & Hl' & Hnow').
    destruct (_handleUpdate_frame rev (entry x) b wb) as (Hc & _ & Hid & _).
    cbv zeta in *.
    assert (_rebundleStream (gulp wb) = Some stream) as Hsb by exact Hs.
    assert (update_target wb = stream) as Htarget by (unfold update_target; rewrite Hsb; reflexivity).
    assert (rebundle_notifications wb = notes0 ++ [stream]) as Hnb.
    { unfold rebundle_notifications. subst wb. world_fields.
      rewrite omap_app. cbn. rewrite app_nil_r. exact Hn. }
    rewrite Hsb, Htarget in *.
    unfold in_burst. split; [apply timer_inv_handleUpdate, Hinvb|].
    split; [rewrite (config_rebundle _ _ Hc); exact Hon|].
    split; [rewrite (config_close_delay rev wb _ Hc); exact Hd|].
    split; [exact Hs'|]. split.
    { eexists. rewrite Ht'. fold (close_delay rev wb).
      change (close_delay rev wb) with (close_delay rev w). rewrite Hd. reflexivity. }
    split; [rewrite Hl'; exact Hlen|]. split; [rewrite Hn'; exact Hnb|].
    split.
    { rewrite Hw'. change (writes wb) with (writes w). rewrite Hw.
      rewrite alter_app_r_alt by lia. rewrite Hlen0, Nat.sub_diag. reflexivity. }
    split; [exists more; rewrite Hid; exact Hb|].
    rewrite Hnow'. reflexivity.
  - exact Hina.
  - exact Hina.
Qed.

Lemma updates_of_cons bs t ev es :
  updates_of bs ((t, ev) :: es) =
  match ev with
  | update b => option_list (entry <$> bs !! b)
  | _ => []
  end ++ updates_of bs es.
Proof.
  unfold updates_of. destruct ev as [| |b| |]; simpl; try reflexivity.
  destruct (entry <$> bs !! b); reflexivity.
Qed.

Lemma burst_runs rev d stream notes0 writes0 (bundlers0 : list Bundler) es :
  forall last prev ws w,
  in_burst rev d stream notes0 writes0 (identity <$> bundlers0) last prev ws w ->
  length writes0 = stream ->
  known (length bundlers0) es = true ->
  in_window d last prev es = true ->
  exists prev',
    in_burst rev d stream notes0 writes0 (identity <$> bundlers0)
             (last_update last es) prev' (ws ++ updates_of bundlers0 es) (run rev es w).
Proof.
  induction es as [|[t ev] es IH]; intros last prev ws w Hin Hlen Hk Hw.
  - exists prev. cbn. rewrite app_nil_r. exact Hin.
  - cbn [known forallb fst snd] in Hk. apply andb_true_iff in Hk. destruct Hk as [Hk1 Hk].
    cbn [in_window fst snd] in Hw. apply andb_true_iff in Hw. destruct Hw as [Hw1 Hw].
    apply andb_true_iff in Hw1. destruct Hw1 as [Hprev Hwin].
    apply Z.leb_le in Hprev. apply Z.ltb_lt in Hwin.
    assert (match ev with update b => b < length bundlers0 | _ => True end) as Hknown.
    { destruct ev; try exact I. apply Nat.ltb_lt, Hk1. }
    pose proof (burst_continues rev d stream notes0 writes0 bundlers0 last prev ws w t ev
                  Hin Hlen Hprev Hwin Hknown) as Hstep.
    destruct (IH _ _ _ _ Hstep Hlen Hk Hw) as (prev' & Hfin).
    exists prev'. cbn [run fold_left last_update updates_of omap fst snd].
    fold (run rev es (step rev (t, ev) w)).
    assert (ws ++ updates_of bundlers0 ((t, ev) :: es) =
            (ws ++ match ev with
                   | update b => option_list (entry <$> bundlers0 !! b)
                   | _ => []
                   end) ++ updates_of bundlers0 es) as ->.
    { rewrite <- app_assoc. f_equal. apply updates_of_cons. }
    exact Hfin.
Qed.


(** ** The end of a ReBundle stream (part_000) *)

Lemma waiting_app s cs more : waiting s (cs ++ more) = waiting s cs + waiting s more.
Proof. unfold waiting. rewrite filter_app, length_app. reflexivity. Qed.

Lemma waiting_one s c : waiting s [c] = if awaits s c then 1 else 0.
Proof.
  unfold waiting. rewrite filter_cons, filter_nil.
  destruct (awaits s c); cbn; reflexivity.
Qed.

Lemma waiting_mark s cs id c :
  cs !! id = Some c ->
  waiting s cs =
  waiting s (<[id := mkBundleCall (on_bundler c) (callback c) false]> cs)
  + (if awaits s c then 1 else 0).
Proof.
  intros Hc.
  rewrite <- (take_drop_middle cs id c Hc) at 1.
  rewrite insert_take_drop by (eapply lookup_lt_Some, Hc).
  rewrite !waiting_app.
  change (c :: drop (S id) cs) with ([c] ++ drop (S id) cs).
  change (?x :: drop (S id) cs) with ([x] ++ drop (S id) cs).
  rewrite !waiting_app, !waiting_one.
  change (awaits s (mkBundleCall (on_bundler c) (callback c) false)) with false.
  destruct (awaits s c); lia.
Qed.

Lemma waiting_invalid s n cs :
  Forall (call_stream_ok n) cs -> n <= s -> waiting s cs = 0.
Proof.
  intros Hf Hn. unfold waiting. apply length_zero_iff_nil.
  induction Hf as [|c cs Hc _ IH]; [reflexivity|].
  rewrite filter_cons_False; [exact IH|].
  unfold awaits, call_stream_ok in *. destruct (callback c) as [|s' f];
    [rewrite andb_false_r; discriminate|].
  destruct (Nat.eqb_spec s' s); [lia|]. rewrite andb_false_r. discriminate.
Qed.

Lemma waiting_zero s cs id c :
  waiting s cs = 0 -> cs !! id = Some c -> awaits s c = false.
Proof.
  intros Hw Hc. destruct (awaits s c) eqn:Ha; [|reflexivity].
  rewrite (waiting_mark s cs id c Hc), Ha in Hw. lia.
Qed.

Lemma ended_last_nil : ended_last [].
Proof. intros i Hi. discriminate Hi. Qed.

Lemma ended_last_push out x : None ∉ out -> ended_last (out ++ [x]).
Proof.
  intros Hn i Hi. rewrite length_app. cbn.
  destruct (decide (i < length out)) as [Hlt|Hge].
  - rewrite lookup_app_l in Hi by exact Hlt. exfalso. apply Hn.
    eapply list_elem_of_lookup_2, Hi.
  - assert (i < length (out ++ [x])) as Hlt by (eapply lookup_lt_Some, Hi).
    rewrite length_app in Hlt. cbn in Hlt. lia.
Qed.

Lemma asyncs_alter f g s w :
  (forall x, async (f x) = g (async x)) ->
  asyncs (on_rebundle s f w) = alter g s (asyncs w).
Proof.
  intros H. unfold asyncs. world_fields. apply list_fmap_alter.
  apply Forall_forall. intros x _. apply H.
Qed.

Lemma fmap_alter_at {A B} (h : A -> B) (f : A -> A) (g : B -> B) s (l : list A) x :
  l !! s = Some x -> h (f x) = g (h x) -> h <$> alter f s l = alter g s (h <$> l).
Proof.
  revert s. induction l as [|y l IH]; intros [|s] Hx H; cbn in *; try discriminate.
  - injection Hx as ->. rewrite H. reflexivity.
  - f_equal. apply IH; assumption.
Qed.

Lemma asyncs_alter_at f g s w r :
  rebundles w !! s = Some r ->
  async (f r) = g (async r) ->
  asyncs (on_rebundle s f w) = alter g s (asyncs w).
Proof.
  intros Hr H. unfold asyncs. world_fields. eapply fmap_alter_at; eassumption.
Qed.

Lemma asyncs_registerAsync s w : asyncs (registerAsync s w) = alter registered s (asyncs w).
Proof. apply asyncs_alter. intros []; reflexivity. Qed.

Lemma asyncs_finishIfResolved s w :
  asyncs (finishIfResolved s w) = alter finished s (asyncs w) /\
  calls (finishIfResolved s w) = calls w /\ timers (finishIfResolved s w) = timers w /\
  gulp (finishIfResolved s w) = gulp w.
Proof.
  unfold finishIfResolved. cbv zeta. world_fields. rewrite list_lookup_alter_eq.
  destruct (rebundles w !! s) as [r|] eqn:Hr; cbn [fmap option_fmap option_map].
  - assert (asyncs (on_rebundle s
                      (fun r => rb_with_unresolved (_unresolvedAsyncs r - 1) r) w) =
            alter (fun a => let '(u, tr, out) := a in ((u - 1)%Z, tr, out)) s (asyncs w)) as H1.
    { apply asyncs_alter. intros []; reflexivity. }
    cbn [_unresolvedAsyncs rb_with_unresolved].
    destruct (_unresolvedAsyncs r - 1 =? 0)%Z eqn:Hz.
    + split; [|repeat split; reflexivity].
      unfold rb_push.
      rewrite (asyncs_alter _ (pushing None)) by (intros [[] ? ? ? ? ?]; reflexivity).
      fold (on_rebundle s (fun r => rb_with_unresolved (_unresolvedAsyncs r - 1) r) w).
      rewrite H1, list_alter_alter_eq. apply list_alter_ext; [|reflexivity].
      intros a Ha. unfold asyncs in Ha. rewrite list_lookup_fmap, Hr in Ha.
      injection Ha as <-. cbn. rewrite Hz. reflexivity.
    + split; [|repeat split; reflexivity].
      fold (on_rebundle s (fun r => rb_with_unresolved (_unresolvedAsyncs r - 1) r) w).
      rewrite H1. apply list_alter_ext; [|reflexivity].
      intros a Ha. unfold asyncs in Ha. rewrite list_lookup_fmap, Hr in Ha.
      injection Ha as <-. cbn. rewrite Hz. reflexivity.
  - split; [|repeat split; reflexivity].
    unfold asyncs. world_fields. rewrite !list_alter_id_None; try reflexivity;
      [rewrite list_lookup_fmap, Hr; reflexivity|exact Hr].
Qed.

Lemma asyncs_ReBundle_transform s f w r :
  rebundles w !! s = Some r ->
  let w' := ReBundle_transform part_000 s f w in
  asyncs w' = alter registered s (asyncs w) /\
  calls w' = calls w ++ [mkBundleCall (_bundlerInstance r) (rebundleCallback s f) true] /\
  timers w' = timers w /\ gulp w' = gulp w.
Proof.
  intros Hr. cbv zeta. unfold ReBundle_transform. rewrite Hr.
  destruct (rb_verbose r); (split; [|repeat split; reflexivity]);
    apply (asyncs_registerAsync s (bundle (_bundlerInstance r) (rebundleCallback s f) w)).
Qed.

(** [done(er)]: either the stream becomes idle, or (without an error and
    with a file buffered) the next transform starts and registers. *)
Lemma asyncs_ReBundle_done s er w r :
  rebundles w !! s = Some r ->
  let w' := ReBundle_done part_000 s er w in
  timers w' = timers w /\ gulp w' = gulp w /\
  ((asyncs w' = alter (in_flight false) s (asyncs w) /\ calls w' = calls w) \/
   (exists c, asyncs w' = alter (registered ∘ in_flight true) s (asyncs w) /\
              calls w' = calls w ++
                           [mkBundleCall (_bundlerInstance r) (rebundleCallback s c) true])).
Proof.
  intros Hr. cbv zeta.
  destruct (ReBundle_done_local part_000 s er w) as (Hg & Ht & _).
  split; [exact Ht|]. split; [exact Hg|].
  unfold ReBundle_done. cbv zeta.
  set (w1 := on_rebundle s (fun r => rb_with_stream (called_back er (rb_stream r)) r) w).
  assert (asyncs w1 = alter (in_flight false) s (asyncs w)) as H1.
  { apply asyncs_alter. intros [[] ? ? ? ? ?]. reflexivity. }
  destruct er as [e|]; [left; split; [exact H1|reflexivity]|].
  assert (rebundles w1 !! s =
          Some (rb_with_stream (called_back None (rb_stream r)) r)) as Hr1.
  { subst w1. world_fields. rewrite list_lookup_alter_eq, Hr. reflexivity. }
  rewrite Hr1. unfold take_next. cbn [rb_stream rb_with_stream called_back buffered].
  destruct (buffered (rb_stream r)) as [|c rest]; [left; split; [exact H1|reflexivity]|].
  right. exists c.
  set (st := mkTransform true rest _ _ _).
  set (w2 := on_rebundle s (rb_with_stream st) w1).
  assert (rebundles w2 !! s = Some (rb_with_stream st (rb_with_stream (called_back None (rb_stream r)) r))) as Hr2.
  { subst w2. world_fields. rewrite list_lookup_alter_eq, Hr1. reflexivity. }
  destruct (asyncs_ReBundle_transform s c w2 _ Hr2) as (Ha & Hc & _).
  cbv zeta in Ha, Hc. rewrite Ha, Hc. split; [|reflexivity].
  assert (asyncs w2 = alter (in_flight true) s (asyncs w1)) as H2.
  { subst w2. eapply asyncs_alter_at; [exact Hr1|]. reflexivity. }
  rewrite H2, H1, !list_alter_alter_eq. apply list_alter_ext; [|reflexivity].
  intros [[u tr] out] _. reflexivity.
Qed.

Lemma asyncs_ReBundle_write s f w r :
  rebundles w !! s = Some r ->
  let w' := ReBundle_write part_000 s f w in
  timers w' = timers w /\ gulp w' = gulp w /\
  ((transforming (rb_stream r) = true /\ asyncs w' = asyncs w /\ calls w' = calls w) \/
   (transforming (rb_stream r) = false /\
    asyncs w' = alter (registered ∘ in_flight true) s (asyncs w) /\
    calls w' = calls w ++
                 [mkBundleCall (_bundlerInstance r) (rebundleCallback s f) true])).
Proof.
  intros Hr. cbv zeta.
  destruct (ReBundle_write_local part_000 s f w) as (Hg & Ht & _).
  split; [exact Ht|]. split; [exact Hg|].
  unfold ReBundle_write. rewrite Hr.
  set (w1 := on_rebundle s (fun r => rb_with_stream (accept f (rb_stream r)) r) w).
  assert (asyncs w1 = alter (in_flight true) s (asyncs w)) as H1.
  { apply asyncs_alter. intros [[[] ? ? ? ?] ? ? ? ? ?]; reflexivity. }
  destruct (transforming (rb_stream r)) eqn:Htr.
  - left. split; [reflexivity|]. split; [|reflexivity].
    rewrite H1. rewrite <- (list_alter_id id (asyncs w) s) at 2 by reflexivity.
    apply list_alter_ext; [|reflexivity].
    intros a Ha. unfold asyncs in Ha. rewrite list_lookup_fmap, Hr in Ha.
    injection Ha as <-. unfold async, in_flight. rewrite Htr. reflexivity.
  - right. split; [reflexivity|].
    assert (rebundles w1 !! s = Some (rb_with_stream (accept f (rb_stream r)) r)) as Hr1.
    { subst w1. world_fields. rewrite list_lookup_alter_eq, Hr. reflexivity. }
    destruct (asyncs_ReBundle_transform s f w1 _ Hr1) as (Ha & Hc & _).
    cbv zeta in Ha, Hc. rewrite Ha, Hc, H1, list_alter_alter_eq.
    split; reflexivity.
Qed.

(** The callback of a rebundle, as a whole: it ends fatally, or it
    finishes, with the next transform started or not. *)
Lemma asyncs_rebundled s f result w r :
  rebundles w !! s = Some r ->
  let w' := rebundled part_000 s f result w in
  timers w' = timers w /\ gulp w' = gulp w /\
  ((asyncs w' = alter (in_flight false) s (asyncs w) /\ calls w' = calls w) \/
   (exists x, (None ∉ x) /\
      ((asyncs w' = alter (finished ∘ in_flight false ∘ appending x) s (asyncs w) /\
        calls w' = calls w) \/
       (exists c, asyncs w' =
                  alter (finished ∘ registered ∘ in_flight true ∘ appending x) s (asyncs w) /\
                  calls w' = calls w ++
                               [mkBundleCall (_bundlerInstance r) (rebundleCallback s c) true])))).
Proof.
  intros Hr. cbv zeta.
  destruct (rebundled_local part_000 s f result w) as (Hg & Ht & _).
  split; [exact Ht|]. split; [exact Hg|].
  unfold rebundled. rewrite Hr.
  assert (forall x w2, None ∉ x -> rebundles w2 !! s <> None ->
            (forall r2, rebundles w2 !! s = Some r2 -> _bundlerInstance r2 = _bundlerInstance r) ->
            asyncs w2 = alter (appending x) s (asyncs w) -> calls w2 = calls w ->
            exists x, (None ∉ x) /\
              ((asyncs (finishIfResolved s (ReBundle_done part_000 s None w2)) =
                  alter (finished ∘ in_flight false ∘ appending x) s (asyncs w) /\
                calls (finishIfResolved s (ReBundle_done part_000 s None w2)) = calls w) \/
               (exists c, asyncs (finishIfResolved s (ReBundle_done part_000 s None w2)) =
                            alter (finished ∘ registered ∘ in_flight true ∘ appending x) s
                                  (asyncs w) /\
                          calls (finishIfResolved s (ReBundle_done part_000 s None w2)) =
                            calls w ++ [mkBundleCall (_bundlerInstance r)
                                          (rebundleCallback s c) true]))) as Hfin.
  { intros x w2 Hx Hex Hbi Ha2 Hc2. exists x. split; [exact Hx|].
    destruct (rebundles w2 !! s) as [r2|] eqn:Hr2; [|contradiction].
    destruct (asyncs_ReBundle_done s None w2 r2 Hr2) as (_ & _ & Hd).
    cbv zeta in Hd.
    destruct (asyncs_finishIfResolved s (ReBundle_done part_000 s None w2)) as (Hf & Hfc & _).
    rewrite Hf, Hfc. destruct Hd as [(Ha & Hc) | (c & Ha & Hc)].
    - left. rewrite Ha, Hc, Ha2, Hc2, !list_alter_alter_eq. split; reflexivity.
    - right. exists c. rewrite Ha, Hc, Ha2, Hc2, !list_alter_alter_eq.
      rewrite (Hbi r2 eq_refl). split; reflexivity. }
  destruct result as [err|source].
  - destruct (rb_skipUpdateError r); cbn [negb].
    + right. apply (Hfin []).
      * intros H. inversion H.
      * change (rebundles w !! s <> None). rewrite Hr. discriminate.
      * intros r2 Hr2. change (rebundles w !! s = Some r2) in Hr2. congruence.
      * unfold asyncs. world_fields.
        rewrite <- (list_alter_id id (async <$> rebundles w) s) at 1 by reflexivity.
        apply list_alter_ext; [|reflexivity].
        intros [[u tr] out] _. cbn. rewrite app_nil_r. reflexivity.
      * reflexivity.
    + left. destruct (asyncs_ReBundle_done s (Some (PluginError_wrap "gulp-watchify" err)) w r Hr)
        as (_ & _ & [(Ha & Hc) | (c & Ha & Hc)]); cbv zeta in Ha, Hc.
      * split; assumption.
      * exfalso. apply (f_equal length) in Hc. rewrite length_app in Hc. cbn in Hc.
        unfold ReBundle_done in Hc. cbn in Hc. lia.
  - right. cbv zeta.
    set (w1 := rb_push s (Some (_createBundleFile f source)) w).
    assert (asyncs w1 = alter (appending [Some (_createBundleFile f source)]) s (asyncs w)) as H1.
    { apply asyncs_alter. intros [[] ? ? ? ? ?]. reflexivity. }
    assert (rebundles w1 !! s <> None) as Hex.
    { subst w1. world_fields. rewrite list_lookup_alter_eq, Hr. discriminate. }
    assert (forall r2, rebundles w1 !! s = Some r2 -> _bundlerInstance r2 = _bundlerInstance r) as Hbi.
    { intros r2. subst w1. world_fields. rewrite list_lookup_alter_eq, Hr.
      intros H. injection H as <-. reflexivity. }
    assert (None ∉ [Some (_createBundleFile f source)]) as Hx.
    { intros H. apply list_elem_of_singleton in H. discriminate H. }
    destruct (rb_verbose r).
    + apply (Hfin _ (gutil_log (log_rebundled (path f)) w1) Hx Hex Hbi H1 eq_refl).
    + apply (Hfin _ w1 Hx Hex Hbi H1 eq_refl).
Qed.

(** Bundle calls made by the main stream never wait for a ReBundle stream. *)
Lemma waiting_GulpWatchify_transform rev c w s :
  waiting s (calls (GulpWatchify_transform rev c w)) = waiting s (calls w).
Proof.
  destruct (negb (chunk_truthy c) || negb (truthy (chunk_path c))) eqn:Hg.
  - rewrite transform_rejects; [reflexivity|].
    apply orb_true_iff in Hg. destruct Hg as [Hg|Hg]; apply negb_true_iff in Hg; auto.
  - apply orb_false_iff in Hg. destruct Hg as [_ Hg2].
    apply negb_false_iff in Hg2. destruct c as [v|f]; [discriminate Hg2|].
    destruct (transform_accepts rev f w Hg2) as (_ & Hc & _). cbv zeta in Hc.
    rewrite Hc, waiting_app, waiting_one. cbn. lia.
Qed.

Lemma waiting_GulpWatchify_done rev er w s :
  waiting s (calls (GulpWatchify_done rev er w)) = waiting s (calls w).
Proof.
  unfold GulpWatchify_done. cbv zeta. destruct er; [reflexivity|].
  destruct (take_next _) as [[c st]|]; [|reflexivity].
  rewrite waiting_GulpWatchify_transform. reflexivity.
Qed.

Lemma waiting_GulpWatchify_write rev c w s :
  waiting s (calls (GulpWatchify_write rev c w)) = waiting s (calls w).
Proof.
  unfold GulpWatchify_write. cbv zeta. destruct (transforming _); [reflexivity|].
  rewrite waiting_GulpWatchify_transform. reflexivity.
Qed.

Lemma waiting_firstBundled rev f result w s :
  waiting s (calls (firstBundled rev f result w)) = waiting s (calls w).
Proof.
  unfold firstBundled. cbv zeta. destruct result as [err|source].
  - destruct rev; unfold _handleError;
      repeat match goal with |- context [if ?c then _ else _] => destruct c end;
      rewrite waiting_GulpWatchify_done; reflexivity.
  - rewrite waiting_GulpWatchify_done. destruct (verbose _); reflexivity.
Qed.

Lemma resolved_inv_same w w' s a :
  pending s (timers w') = pending s (timers w) ->
  waiting s (calls w') = waiting s (calls w) ->
  resolved_inv w s a -> resolved_inv w' s a.
Proof.
  intros Hp Hw. destruct a as [[u tr] out]. unfold resolved_inv.
  rewrite Hp, Hw. auto.
Qed.

Lemma streams_inv_same w w' :
  asyncs w' = asyncs w -> timers w' = timers w ->
  (forall s, waiting s (calls w') = waiting s (calls w)) ->
  streams_inv w -> streams_inv w'.
Proof.
  intros Ha Ht Hw Hinv s a Hs. rewrite Ha in Hs.
  eapply resolved_inv_same; [rewrite Ht; reflexivity|apply Hw|apply Hinv, Hs].
Qed.

Lemma streams_inv_update w w' s0 g :
  asyncs w' = alter g s0 (asyncs w) ->
  (forall s, s <> s0 -> pending s (timers w') = pending s (timers w) /\
                        waiting s (calls w') = waiting s (calls w)) ->
  (forall a, asyncs w !! s0 = Some a -> resolved_inv w s0 a -> resolved_inv w' s0 (g a)) ->
  streams_inv w -> streams_inv w'.
Proof.
  intros Ha Hother Hs0 Hinv s a Hs. rewrite Ha, list_lookup_alter in Hs.
  destruct (decide (s0 = s)) as [<-|Hne].
  - destruct (asyncs w !! s0) as [a0|] eqn:Ha0; [|discriminate Hs].
    injection Hs as <-. apply Hs0; [reflexivity|]. apply Hinv, Ha0.
  - destruct (Hother s ltac:(congruence)) as (Hp & Hw).
    eapply resolved_inv_same; [exact Hp|exact Hw|apply Hinv, Hs].
Qed.

Lemma ended_last_no_end out : None ∉ out -> ended_last out.
Proof. intros Hn i Hi. exfalso. apply Hn. eapply list_elem_of_lookup_2, Hi. Qed.

Lemma no_end_app (out x : list (option File)) : None ∉ out -> None ∉ x -> None ∉ out ++ x.
Proof. intros H1 H2 H. apply elem_of_app in H. destruct H; auto. Qed.

Lemma pending_nil s : pending s [] = 0%Z.
Proof. reflexivity. Qed.

Lemma pending_one s x : pending s [x] = if closes x =? s then 1%Z else 0%Z.
Proof. unfold pending. cbn. rewrite orb_false_r. reflexivity. Qed.

Lemma pending_range s ts : (0 <= pending s ts <= 1)%Z.
Proof. unfold pending. destruct (existsb _ ts); lia. Qed.

(** A stream with a transform in flight whose bundle call is answered. *)
Lemma resolved_inv_answered w w' s u tr out :
  resolved_inv w s (u, tr, out) ->
  pending s (timers w') = pending s (timers w) ->
  (1 <= waiting s (calls w)) ->
  (waiting s (calls w') = 0 -> resolved_inv w' s (in_flight false (u, tr, out))) /\
  (forall x, None ∉ x ->
     (waiting s (calls w') = 0 ->
      resolved_inv w' s ((finished ∘ in_flight false ∘ appending x) (u, tr, out))) /\
     (waiting s (calls w') = 1 ->
      resolved_inv w' s ((finished ∘ registered ∘ in_flight true ∘ appending x) (u, tr, out)))).
Proof.
  intros (H1 & H2 & H3 & H4) Hp Hw.
  pose proof (pending_range s (timers w)) as Hr.
  assert (1 <= u)%Z as Hu by lia.
  assert (None ∉ out) as Hno by (intros Hin; specialize (H3 Hin); lia).
  split; [|intros x Hx; split]; intros Hw'; cbn; rewrite Hp, Hw'.
  - repeat split; [lia|exact H3|exact H4].
  - split; [lia|]. split; [reflexivity|].
    destruct (u - 1 =? 0)%Z eqn:Hz.
    + split; [intros _; lia|]. apply ended_last_push, no_end_app; assumption.
    + split.
      * intros Hin. exfalso. revert Hin. apply no_end_app; assumption.
      * apply ended_last_no_end, no_end_app; assumption.
  - replace (u + 1 - 1)%Z with u by lia.
    destruct (u =? 0)%Z eqn:Hz; [lia|].
    split; [lia|]. split; [reflexivity|]. split.
    + intros Hin. exfalso. revert Hin. apply no_end_app; assumption.
    + apply ended_last_no_end, no_end_app; assumption.
Qed.

Lemma awaits_other s s0 b f o : s <> s0 -> awaits s (mkBundleCall b (rebundleCallback s0 f) o) = false.
Proof.
  intros Hne. unfold awaits. cbn. destruct (Nat.eqb_spec s0 s); [congruence|].
  apply andb_false_r.
Qed.

Lemma awaits_own s b f : awaits s (mkBundleCall b (rebundleCallback s f) true) = true.
Proof. unfold awaits. cbn. apply Nat.eqb_refl. Qed.

Lemma streams_inv_rebundled w id c s0 f result :
  wired part_000 w -> streams_inv w ->
  calls w !! id = Some c -> outstanding c = true -> callback c = rebundleCallback s0 f ->
  streams_inv (rebundled part_000 s0 f result
                 (with_calls (<[id := mkBundleCall (on_bundler c) (callback c) false]> (calls w)) w)).
Proof.
  intros (Hvalid & _) Hinv Hc Hout Hcb.
  set (w1 := with_calls _ w).
  assert (s0 < length (rebundles w)) as Hs0.
  { eapply Forall_lookup_1 in Hvalid; [|exact Hc].
    unfold call_stream_ok in Hvalid. rewrite Hcb in Hvalid. exact Hvalid. }
  destruct (lookup_lt_is_Some_2 _ _ Hs0) as [r Hr].
  assert (awaits s0 c = true) as Haw.
  { unfold awaits. rewrite Hout, Hcb. cbn. apply Nat.eqb_refl. }
  assert (forall s, s <> s0 -> awaits s c = false) as Hnaw.
  { intros s Hne. unfold awaits. rewrite Hcb.
    destruct (Nat.eqb_spec s0 s); [congruence|]. apply andb_false_r. }
  assert (forall s, waiting s (calls w) =
                    waiting s (calls w1) + (if awaits s c then 1 else 0)) as Hmark.
  { intros s. apply waiting_mark, Hc. }
  destruct (asyncs_rebundled s0 f result w1 r Hr) as (Ht & _ & Hshape).
  cbv zeta in Ht, Hshape.
  assert (forall a, asyncs w !! s0 = Some a -> resolved_inv w s0 a ->
            1 <= waiting s0 (calls w) /\ waiting s0 (calls w1) = 0) as Hone.
  { intros [[u tr] out] _ (_ & H2 & _). specialize (Hmark s0). rewrite Haw in Hmark.
    destruct tr; lia. }
  destruct Hshape as [(Ha & Hcalls) | (x & Hx & [(Ha & Hcalls) | (c' & Ha & Hcalls)])];
    (eapply (streams_inv_update w); [exact Ha| | |exact Hinv]).
  - intros s Hne. rewrite Ht, Hcalls. split; [reflexivity|].
    rewrite (Hmark s), (Hnaw s Hne). lia.
  - intros [[u tr] out] Hlook Hres. destruct (Hone _ Hlook Hres) as (Hge & Hz).
    eapply resolved_inv_answered; [exact Hres| |exact Hge|].
    + rewrite Ht. reflexivity.
    + rewrite Hcalls. exact Hz.
  - intros s Hne. rewrite Ht, Hcalls. split; [reflexivity|].
    rewrite (Hmark s), (Hnaw s Hne). lia.
  - intros [[u tr] out] Hlook Hres. destruct (Hone _ Hlook Hres) as (Hge & Hz).
    eapply (resolved_inv_answered w _ s0 u tr out Hres); [|exact Hge|exact Hx|].
    + rewrite Ht. reflexivity.
    + rewrite Hcalls. exact Hz.
  - intros s Hne. rewrite Ht, Hcalls, waiting_app, waiting_one, awaits_other by exact Hne.
    split; [reflexivity|]. rewrite (Hmark s), (Hnaw s Hne). lia.
  - intros [[u tr] out] Hlook Hres. destruct (Hone _ Hlook Hres) as (Hge & Hz).
    eapply (resolved_inv_answered w _ s0 u tr out Hres); [|exact Hge|exact Hx|].
    + rewrite Ht. reflexivity.
    + rewrite Hcalls, waiting_app, waiting_one, awaits_own, Hz. reflexivity.
Qed.

(** The pending timeout runs. *)
Lemma streams_inv_timed_out w x tm :
  timers w = [x] -> streams_inv w ->
  streams_inv (timed_out part_000 x (with_now tm (with_timers [] (next_handle w) w))).
Proof.
  intros Htx Hinv. unfold timed_out.
  set (w1 := with_now _ _).
  destruct (asyncs_finishIfResolved (closes x) w1) as (Ha & Hc & Ht & _).
  eapply (streams_inv_update w _ (closes x) finished).
  - exact Ha.
  - intros s Hne. world_fields. rewrite Ht, Hc, Htx, pending_one.
    destruct (Nat.eqb_spec (closes x) s); [congruence|]. split; reflexivity.
  - intros [[u tr] out] _ (H1 & H2 & H3 & H4). cbn. world_fields.
    rewrite Ht, Hc. change (timers w1) with (@nil Timer). change (calls w1) with (calls w).
    rewrite Htx, pending_one, Nat.eqb_refl in H1. rewrite pending_nil.
    assert (None ∉ out) as Hno by (intros Hin; specialize (H3 Hin); lia).
    split; [lia|]. split; [exact H2|].
    destruct (u - 1 =? 0)%Z eqn:Hz.
    + split; [intros _; lia|]. apply ended_last_push, Hno.
    + split; [intros Hin; contradiction|exact H4].
  - exact Hinv.
Qed.

Lemma asyncs_opened b w :
  asyncs (opened part_000 b w) =
  match _rebundleStream (gulp w) with
  | Some _ => asyncs w
  | None => asyncs w ++ [(1%Z, false, [])]
  end.
Proof.
  unfold opened.
  destruct (clearTimeout_frame (_rebundleTimeout (gulp w)) w) as (_ & Hr & _).
  cbv zeta in *.
  destruct (_rebundleStream (gulp w)) as [r|].
  - unfold asyncs. rewrite Hr. reflexivity.
  - rewrite asyncs_registerAsync. unfold asyncs. world_fields. rewrite Hr, fmap_app.
    rewrite alter_app_r_alt by (rewrite length_fmap; lia).
    rewrite length_fmap, Nat.sub_diag. reflexivity.
Qed.

Lemma streams_inv_handleUpdate f b w :
  timer_inv w -> wired part_000 w -> streams_inv w ->
  streams_inv (_handleUpdate part_000 f b w).
Proof.
  intros Htinv (Hvalid & _) Hinv.
  destruct (truthy (_rebundle (gulp w))) eqn:Hon.
  2:{ rewrite _handleUpdate_off by exact Hon. exact Hinv. }
  rewrite _handleUpdate_stages by exact Hon. cbv zeta.
  set (target := update_target w).
  set (wo := opened part_000 b w).
  destruct (opened_facts part_000 b w Htinv) as (Hto & _ & Hlt & _).
  destruct (opened_frame part_000 b w) as (_ & _ & _ & Hco & _).
  cbv zeta in Hto, Hlt, Hco. fold wo target in Hto, Hlt, Hco.
  destruct (lookup_lt_is_Some_2 _ _ Hlt) as [rt Hrt].
  destruct (asyncs_ReBundle_write target f wo rt Hrt) as (Htw & _ & Hwrite).
  cbv zeta in Htw, Hwrite.
  set (w3 := ReBundle_write part_000 target f wo) in *.
  pose proof (asyncs_opened b w) as Hao. fold wo in Hao.
  (* the pending timeout before and after *)
  assert (forall s, s <> target -> pending s (timers w) = 0%Z) as Hp_other.
  { intros s Hne. unfold timer_inv in Htinv.
    destruct (timers w) as [|x [|x' ts]]; [reflexivity| |contradiction].
    destruct Htinv as (_ & Hs & _). rewrite pending_one.
    destruct (Nat.eqb_spec (closes x) s) as [Heq|]; [|reflexivity].
    exfalso. apply Hne. subst target. unfold update_target. rewrite Hs. congruence. }
  assert (forall t0, _rebundleStream (gulp w) = Some t0 -> pending target (timers w) = 1%Z)
    as Hp_target.
  { intros t0 Hs0. unfold timer_inv in Htinv.
    destruct (timers w) as [|x [|x' ts]]; [congruence| |contradiction].
    destruct Htinv as (_ & Hs & _). rewrite pending_one.
    subst target. unfold update_target. rewrite Hs, Nat.eqb_refl. reflexivity. }
  intros s a Hs. unfold resolved_inv. unfold setTimeout in *. revert Hs. world_fields.
  unfold asyncs at 1. world_fields. fold (asyncs w3).
  rewrite Htw, Hto. cbn [app]. rewrite pending_one. cbn [closes].
  intros Hs.
  destruct (decide (s = target)) as [->|Hne].
  - rewrite Nat.eqb_refl.
    assert (asyncs wo !! target = Some (async rt)) as Hat.
    { unfold asyncs. rewrite list_lookup_fmap, Hrt. reflexivity. }
    destruct (_rebundleStream (gulp w)) as [t0|] eqn:Hcur.
    + (* the stream was open already *)
      rewrite Hao in Hat. pose proof (Hinv _ _ Hat) as Hres.
      unfold async in Hres. destruct Hres as (H1 & H2 & H3 & H4).
      rewrite (Hp_target t0 eq_refl) in H1.
      destruct Hwrite as [(Htr & Ha & Hc) | (Htr & Ha & Hc)].
      * rewrite Ha, Hao, Hat in Hs. injection Hs as <-. unfold async.
        rewrite Hc, Hco. repeat split; assumption.
      * rewrite Ha, list_lookup_alter_eq, Hao, Hat in Hs. injection Hs as <-.
        unfold async. cbn. rewrite Hc, Hco, waiting_app, waiting_one, awaits_own.
        rewrite Htr in H2. rewrite H2 in *.
        split; [lia|]. split; [reflexivity|]. split; [|exact H4].
        intros Hin. specialize (H3 Hin). lia.
    + (* a new stream *)
      assert (target = length (rebundles w)) as Htarget.
      { subst target. unfold update_target. rewrite Hcur. reflexivity. }
      assert (waiting target (calls w) = 0) as Hw0.
      { eapply waiting_invalid; [exact Hvalid|]. lia. }
      rewrite Hao in Hat.
      rewrite lookup_app_r in Hat by (unfold asyncs; rewrite length_fmap; lia).
      unfold asyncs in Hat at 1. rewrite length_fmap, <- Htarget, Nat.sub_diag in Hat.
      cbn in Hat. unfold async in Hat. injection Hat as Hu Htr Hout.
      destruct Hwrite as [(Htr' & _) | (_ & Ha & Hc)]; [congruence|].
      rewrite Ha, list_lookup_alter_eq in Hs.
      assert (asyncs wo !! target = Some (1%Z, false, [])) as Hat'.
      { rewrite Hao. rewrite lookup_app_r by (unfold asyncs; rewrite length_fmap; lia).
        unfold asyncs. rewrite length_fmap, <- Htarget, Nat.sub_diag. reflexivity. }
      rewrite Hat' in Hs. injection Hs as <-. cbn.
      rewrite Hc, Hco, waiting_app, waiting_one, awaits_own, Hw0.
      split; [lia|]. split; [reflexivity|]. split; [|apply ended_last_nil].
      intros Hin. inversion Hin.
  - destruct (Nat.eqb_spec target s) as [Heq|_]; [congruence|].
    assert (asyncs wo !! s = Some a) as Hso.
    { destruct Hwrite as [(_ & Ha & _) | (_ & Ha & _)]; rewrite Ha in Hs; [exact Hs|].
      rewrite list_lookup_alter_ne in Hs by congruence. exact Hs. }
    assert (asyncs w !! s = Some a) as Hsw.
    { rewrite Hao in Hso. destruct (_rebundleStream (gulp w)) eqn:Hcur; [exact Hso|].
      assert (target = length (rebundles w)) as Htarget.
      { subst target. unfold update_target. rewrite Hcur. reflexivity. }
      apply lookup_lt_Some in Hso as Hlen. rewrite length_app in Hlen.
      unfold asyncs in Hlen. rewrite length_fmap in Hlen. cbn in Hlen.
      rewrite lookup_app_l in Hso by (unfold asyncs; rewrite length_fmap; lia).
      exact Hso. }
    pose proof (Hinv _ _ Hsw) as Hres. destruct a as [[u tr] out].
    destruct Hres as (H1 & H2 & H3 & H4). rewrite (Hp_other s Hne) in H1.
    assert (waiting s (calls w3) = waiting s (calls w)) as Hw.
    { destruct Hwrite as [(_ & _ & Hc) | (_ & _ & Hc)]; rewrite Hc, Hco; [reflexivity|].
      rewrite waiting_app, waiting_one, awaits_other by exact Hne. lia. }
    rewrite Hw. repeat split; assumption.
Qed.

Lemma settled_new options h : settled (new_GulpWatchify part_000 options h).
Proof.
  split; [apply timer_inv_new|]. split; [apply wired_new|].
  destruct (new_idle part_000 options h) as (_ & Hr & _). cbv zeta in Hr.
  intros s a Hs. unfold asyncs in Hs. rewrite Hr in Hs. discriminate Hs.
Qed.

Lemma settled_advance t w : settled w -> settled (advance part_000 t w).
Proof.
  intros (Ht & Hw & Hs).
  split; [apply timer_inv_advance, Ht|]. split; [apply wired_advance, Hw|].
  destruct (advance_cases part_000 t w Ht) as [(x & Hx & _ & ->) | (_ & ->)].
  - apply streams_inv_timed_out; assumption.
  - exact Hs.
Qed.

Lemma settled_handle ev w : settled w -> settled (handle_event part_000 ev w).
Proof.
  intros (Ht & Hw & Hs).
  split; [apply timer_inv_handle, Ht|]. split; [apply wired_handle, Hw|].
  destruct ev as [ch|id result|b|l key v|]; cbn [handle_event]; try exact Hs.
  - destruct (GulpWatchify_write_local part_000 ch w) as (_&_&_&Htm&_&_&Hr&_).
    eapply streams_inv_same; [unfold asyncs; rewrite Hr; reflexivity|exact Htm| |exact Hs].
    intros s. apply waiting_GulpWatchify_write.
  - destruct (calls w !! id) as [c|] eqn:Hc; [|exact Hs].
    destruct (outstanding c) eqn:Hout; [|exact Hs].
    destruct (callback c) as [f|s0 f] eqn:Hcb.
    + set (w1 := with_calls _ w).
      destruct (firstBundled_local part_000 f result w1) as (_&_&_&Htm&_&_&Hr&_).
      eapply (streams_inv_same w);
        [unfold asyncs; rewrite Hr; reflexivity|exact Htm| |exact Hs].
      intros s. rewrite waiting_firstBundled.
      rewrite (waiting_mark s (calls w) id c Hc). subst w1. world_fields.
      rewrite Hcb. unfold awaits. rewrite Hcb, andb_false_r. lia.
    + rewrite <- Hcb. apply streams_inv_rebundled; assumption.
  - destruct (bundlers w !! b) as [x|]; [|exact Hs].
    apply streams_inv_handleUpdate; assumption.
Qed.

Lemma settled_run options h es :
  settled (run part_000 es (new_GulpWatchify part_000 options h)).
Proof.
  apply run_invariant; [|apply settled_new].
  intros e w Hw. apply settled_handle, settled_advance, Hw.
Qed.

(** In part_000 a stream that has pushed its end marker has no close
    timeout pending and no bundle call outstanding; its counter is zero, no
    transform is in flight, and the end marker is the last thing pushed. *)
Lemma end_marker_only_when_resolved options h es s r :
  let w := run part_000 es (new_GulpWatchify part_000 options h) in
  rebundles w !! s = Some r ->
  None ∈ pushed (rb_stream r) ->
  _unresolvedAsyncs r = 0%Z /\
  (forall x, x ∈ timers w -> closes x <> s) /\
  (forall id c f, calls w !! id = Some c -> callback c = rebundleCallback s f ->
                  outstanding c = false) /\
  transforming (rb_stream r) = false /\
  ended_last (pushed (rb_stream r)).
Proof.
  intros w Hr Hend.
  destruct (settled_run options h es) as (_ & _ & Hs). fold w in Hs.
  assert (asyncs w !! s = Some (async r)) as Ha.
  { unfold asyncs. rewrite list_lookup_fmap, Hr. reflexivity. }
  destruct (Hs _ _ Ha) as (H1 & H2 & H3 & H4).
  specialize (H3 Hend). rewrite H3 in H1.
  pose proof (pending_range s (timers w)) as Hp.
  assert (pending s (timers w) = 0%Z /\ waiting s (calls w) = 0) as (Hp0 & Hw0) by lia.
  split; [exact H3|]. split; [|split; [|split; [|exact H4]]].
  - intros x Hx Hcl. unfold pending in Hp0.
    destruct (existsb (fun x => closes x =? s) (timers w)) eqn:He; [discriminate Hp0|].
    assert (existsb (fun x => closes x =? s) (timers w) = true); [|congruence].
    apply existsb_exists. exists x. split; [apply list_elem_of_In, Hx|].
    apply Nat.eqb_eq, Hcl.
  - intros id c f Hc Hcb. pose proof (waiting_zero s _ id c Hw0 Hc) as Haw.
    unfold awaits in Haw. rewrite Hcb, Nat.eqb_refl, andb_true_r in Haw. exact Haw.
  - rewrite Hw0 in H2. destruct (transforming (rb_stream r)); [discriminate H2|reflexivity].
Qed.

(** ** The claims on sample runs *)



Lemma caches_shared_and_untouched_witness :
  let es := two_entries ++ [(10%Z, library_store 0 "/proj/js/a.js" (Some (JNum 1)))] in
  let w := run part_000 es (new_GulpWatchify part_000 None []) in
  boolean_or_true (Options.primeCache (default Options.empty None)) = true /\
  boolean_or_true (Options.shareWatchers (default Options.empty None)) = true /\
  bundlers_allocated None [] = true /\
  (_depsCache (gulp w), _packageCache (gulp w), _watchers (gulp w))
    = (JRef 0, JRef 1, JRef 2) /\
  heap w !! 0 = Some (stored 0 es ∅).
Proof.
  split; [reflexivity|]. split; [reflexivity|]. split; [reflexivity|].
  destruct (caches_shared_and_untouched part_000 None []
              (two_entries ++ [(10%Z, library_store 0 "/proj/js/a.js" (Some (JNum 1)))]))
    as (Hrefs & _ & Hheap); [reflexivity..|].
  split; [exact Hrefs|]. apply Hheap. apply list_elem_of_here.
Defined.





